(** * VulkanEngine: the initialisation and capability-negotiation pipeline

    A shallow embedding of [Framework] (VulkanEngine/main.cpp): the
    constants and members of the class, the Vulkan/GLFW driver it talks
    to, and the stage functions of [initVulkan] and [cleanup].

    Conventions.
    - [uint32_t] values are integers in [0, 2^32); arithmetic that the
      source performs on them is wrapped with [to_uint32].
    - Vulkan handles are integers, [VK_NULL_HANDLE] is 0.
    - Vulkan enumerations and flag bits carry the values of vulkan_core.h.
    - The driver is a record of pure functions: the same query on the same
      handle gives the same answer.
    - [std::runtime_error] and [std::bad_optional_access] become values of
      [Error]; a stage is a function from the members of the class to a
      result and the updated members. *)

From stdpp Require Import base numbers option list strings gmap.

Local Open Scope Z_scope.

(** ** Machine integers, handles, enumerations *)

Definition UINT32_MAX : Z := 4294967295.

Definition to_uint32 (z : Z) : Z := z mod 4294967296.

Definition is_uint32 (z : Z) : Prop := 0 ≤ z ≤ UINT32_MAX.

Definition VkHandle := Z.
Definition VK_NULL_HANDLE : VkHandle := 0.

Definition VkResult := Z.
Definition VK_SUCCESS : VkResult := 0.
Definition VK_ERROR_EXTENSION_NOT_PRESENT : VkResult := -7.

Definition VK_QUEUE_GRAPHICS_BIT : Z := 1.

Definition VkFormat := Z.
Definition VkColorSpaceKHR := Z.
Definition VkPresentModeKHR := Z.

Definition VK_FORMAT_B8G8R8A8_UNORM : VkFormat := 44.
Definition VK_FORMAT_B8G8R8A8_SRGB : VkFormat := 50.
Definition VK_COLOR_SPACE_SRGB_NONLINEAR_KHR : VkColorSpaceKHR := 0.

Definition VK_PRESENT_MODE_IMMEDIATE_KHR : VkPresentModeKHR := 0.
Definition VK_PRESENT_MODE_MAILBOX_KHR : VkPresentModeKHR := 1.
Definition VK_PRESENT_MODE_FIFO_KHR : VkPresentModeKHR := 2.
Definition VK_PRESENT_MODE_FIFO_RELAXED_KHR : VkPresentModeKHR := 3.

Inductive VkSharingMode :=
  | VK_SHARING_MODE_EXCLUSIVE
  | VK_SHARING_MODE_CONCURRENT.

Definition VK_DEBUG_UTILS_MESSAGE_SEVERITY_VERBOSE_BIT_EXT : Z := 1.
Definition VK_DEBUG_UTILS_MESSAGE_SEVERITY_WARNING_BIT_EXT : Z := 256.
Definition VK_DEBUG_UTILS_MESSAGE_SEVERITY_ERROR_BIT_EXT : Z := 4096.
Definition VK_DEBUG_UTILS_MESSAGE_TYPE_GENERAL_BIT_EXT : Z := 1.
Definition VK_DEBUG_UTILS_MESSAGE_TYPE_VALIDATION_BIT_EXT : Z := 2.
Definition VK_DEBUG_UTILS_MESSAGE_TYPE_PERFORMANCE_BIT_EXT : Z := 4.

Definition VK_IMAGE_USAGE_COLOR_ATTACHMENT_BIT : Z := 16.
Definition VK_COMPOSITE_ALPHA_OPAQUE_BIT_KHR : Z := 1.
Definition VK_IMAGE_VIEW_TYPE_2D : Z := 1.
Definition VK_COMPONENT_SWIZZLE_IDENTITY : Z := 0.
Definition VK_IMAGE_ASPECT_COLOR_BIT : Z := 1.

Definition VK_KHR_SWAPCHAIN_EXTENSION_NAME : string := "VK_KHR_swapchain".
Definition VK_EXT_DEBUG_UTILS_EXTENSION_NAME : string := "VK_EXT_debug_utils".

(** ** Vulkan structures *)

Record VkExtent2D := {
  width : Z;
  height : Z
}.

Record VkSurfaceFormatKHR := {
  format : VkFormat;
  colorSpace : VkColorSpaceKHR
}.

Record VkSurfaceCapabilitiesKHR := {
  minImageCount : Z;
  maxImageCount : Z;
  currentExtent : VkExtent2D;
  minImageExtent : VkExtent2D;
  maxImageExtent : VkExtent2D;
  currentTransform : Z
}.

Record VkQueueFamilyProperties := {
  queueFlags : Z;
  queueCount : Z
}.

Record VkDebugUtilsMessengerCreateInfoEXT := {
  messageSeverity : Z;
  messageType : Z
}.

(** [pApplicationInfo] (fixed names and versions) is left out. *)
Record VkInstanceCreateInfo := {
  ici_enabledExtensionNames : list string;
  ici_enabledLayerNames : list string;
  ici_pNext : option VkDebugUtilsMessengerCreateInfoEXT   (* None is nullptr *)
}.

(** [pQueuePriorities] (the single priority 1.0f) is left out. *)
Record VkDeviceQueueCreateInfo := {
  queueFamilyIndex : Z;
  dq_queueCount : Z
}.

Record VkDeviceCreateInfo := {
  queueCreateInfos : list VkDeviceQueueCreateInfo;
  dci_enabledExtensionNames : list string;
  dci_enabledLayerNames : list string
}.

Record VkSwapchainCreateInfoKHR := {
  sci_surface : VkHandle;
  sci_minImageCount : Z;
  imageFormat : VkFormat;
  imageColorSpace : VkColorSpaceKHR;
  imageExtent : VkExtent2D;
  imageArrayLayers : Z;
  imageUsage : Z;
  imageSharingMode : VkSharingMode;
  queueFamilyIndexCount : Z;
  pQueueFamilyIndices : option (list Z);   (* None is nullptr *)
  preTransform : Z;
  compositeAlpha : Z;
  presentMode : VkPresentModeKHR;
  clipped : bool;
  oldSwapchain : VkHandle
}.

Record VkImageViewCreateInfo := {
  ivi_image : VkHandle;
  viewType : Z;
  ivi_format : VkFormat;
  components : Z * Z * Z * Z;
  aspectMask : Z;
  baseMipLevel : Z;
  levelCount : Z;
  baseArrayLayer : Z;
  layerCount : Z
}.

(** The members of [struct QueueFamilyIndices] and
    [struct SwapChainSupportDetails]. *)

Record QueueFamilyIndices := {
  graphicsFamily : option Z;
  presentationFamily : option Z
}.

Definition IsComplete (indices : QueueFamilyIndices) : bool :=
  bool_decide (is_Some (graphicsFamily indices))
  && bool_decide (is_Some (presentationFamily indices)).

Record SwapChainSupportDetails := {
  surfaceCapabilities : VkSurfaceCapabilitiesKHR;
  surfaceFormats : list VkSurfaceFormatKHR;
  presentationModes : list VkPresentModeKHR
}.

(** ** The constants of the class

    [enableValidationLayers] depends on NDEBUG, the other four are the same
    in every build. *)

Record FrameworkConfig := {
  WINDOW_WIDTH : Z;
  WINDOW_HEIGHT : Z;
  validationLayers : list string;
  deviceExtensions : list string;
  enableValidationLayers : bool
}.

Definition buildConfig (ndebug : bool) : FrameworkConfig := {|
  WINDOW_WIDTH := 800;
  WINDOW_HEIGHT := 600;
  validationLayers := ["VK_LAYER_KHRONOS_validation"];
  deviceExtensions := [VK_KHR_SWAPCHAIN_EXTENSION_NAME];
  enableValidationLayers := negb ndebug
|}.

Definition debugConfig : FrameworkConfig := buildConfig false.
Definition releaseConfig : FrameworkConfig := buildConfig true.

(** ** The driver *)

Record VkDriver := {
  glfwCreateWindow : Z → Z → string → VkHandle;
  glfwGetRequiredInstanceExtensions : list string;
  glfwCreateWindowSurface : VkHandle → VkHandle → VkResult * VkHandle;
  vkEnumerateInstanceLayerProperties : list string;
  vkCreateInstance : VkInstanceCreateInfo → VkResult * VkHandle;
  vkGetInstanceProcAddr : VkHandle → string → bool;
  vkCreateDebugUtilsMessengerEXT :
    VkHandle → VkDebugUtilsMessengerCreateInfoEXT → VkResult * VkHandle;
  vkEnumeratePhysicalDevices : VkHandle → list VkHandle;
  vkGetPhysicalDeviceQueueFamilyProperties :
    VkHandle → list VkQueueFamilyProperties;
  vkGetPhysicalDeviceSurfaceSupportKHR : VkHandle → Z → VkHandle → bool;
  vkEnumerateDeviceExtensionProperties : VkHandle → list string;
  vkGetPhysicalDeviceSurfaceCapabilitiesKHR :
    VkHandle → VkHandle → VkSurfaceCapabilitiesKHR;
  vkGetPhysicalDeviceSurfaceFormatsKHR :
    VkHandle → VkHandle → list VkSurfaceFormatKHR;
  vkGetPhysicalDeviceSurfacePresentModesKHR :
    VkHandle → VkHandle → list VkPresentModeKHR;
  vkCreateDevice : VkHandle → VkDeviceCreateInfo → VkResult * VkHandle;
  vkGetDeviceQueue : VkHandle → Z → Z → VkHandle;
  vkCreateSwapchainKHR :
    VkHandle → VkSwapchainCreateInfoKHR → VkResult * VkHandle;
  vkGetSwapchainImagesKHR : VkHandle → VkHandle → list VkHandle;
  vkCreateImageView : VkHandle → VkImageViewCreateInfo → VkResult * VkHandle
}.

(** ** Errors and results *)

Inductive Error :=
  | UnsupportedLayer            (* "validation layers requested, but not available!" *)
  | InstanceCreationFailed      (* "failed to create instance!" *)
  | DiagnosticsSetupFailed      (* "failed to set up debug messenger!" *)
  | SurfaceCreationFailed       (* "failed to create window surface!" *)
  | NoAcceleratorFound          (* "failed to find GPUs with Vulkan support!" *)
  | NoSuitableAccelerator       (* "failed to find a suitable GPU!" *)
  | DeviceCreationFailed        (* "failed to create logical device!" *)
  | SwapchainCreationFailed     (* "failed to create swap chain!" *)
  | ImageViewCreationFailed     (* "failed to create image views!" *)
  | BadOptionalAccess           (* std::optional::value() on an empty optional *)
  | VectorOutOfRange.           (* operator[] past the end of a vector *)

Inductive result (A : Type) :=
  | Ok (a : A)
  | Err (e : Error).
Arguments Ok {A} a.
Arguments Err {A} e.

Definition value {A} (o : option A) : result A :=
  match o with
  | Some a => Ok a
  | None => Err BadOptionalAccess
  end.

(** ** Swapchain negotiation *)

Definition isPreferredFormat (availableFormat : VkSurfaceFormatKHR) : bool :=
  (format availableFormat =? VK_FORMAT_B8G8R8A8_SRGB)
  && (colorSpace availableFormat =? VK_COLOR_SPACE_SRGB_NONLINEAR_KHR).

Fixpoint chooseSwapSurfaceFormat_scan (formats : list VkSurfaceFormatKHR)
  : option VkSurfaceFormatKHR :=
  match formats with
  | [] => None
  | availableFormat :: rest =>
      if isPreferredFormat availableFormat then Some availableFormat
      else chooseSwapSurfaceFormat_scan rest
  end.

(** [availableFormats[0]] on an empty vector is undefined behaviour in the
    source; here it is the error VectorOutOfRange. *)
Definition chooseSwapSurfaceFormat (availableFormats : list VkSurfaceFormatKHR)
  : result VkSurfaceFormatKHR :=
  match chooseSwapSurfaceFormat_scan availableFormats with
  | Some availableFormat => Ok availableFormat
  | None =>
      match availableFormats !! 0%nat with
      | Some first => Ok first
      | None => Err VectorOutOfRange
      end
  end.

Fixpoint chooseSwapPresentationMode
  (availablePresentationModes : list VkPresentModeKHR) : VkPresentModeKHR :=
  match availablePresentationModes with
  | [] => VK_PRESENT_MODE_FIFO_KHR
  | availablePresentationMode :: rest =>
      if availablePresentationMode =? VK_PRESENT_MODE_MAILBOX_KHR
      then availablePresentationMode
      else chooseSwapPresentationMode rest
  end.

Definition chooseSwapExtent (cfg : FrameworkConfig)
  (capabilities : VkSurfaceCapabilitiesKHR) : VkExtent2D :=
  if negb (width (currentExtent capabilities) =? UINT32_MAX)
  then currentExtent capabilities
  else
    let finalExtent :=
      {| width := to_uint32 (WINDOW_WIDTH cfg);
         height := to_uint32 (WINDOW_HEIGHT cfg) |} in
    {| width :=
         Z.max (width (minImageExtent capabilities))
               (Z.min (width (maxImageExtent capabilities)) (width finalExtent));
       height :=
         Z.max (height (minImageExtent capabilities))
               (Z.min (height (maxImageExtent capabilities)) (height finalExtent)) |}.

(** createSwapChain, lines 482-485: the number of images requested. *)
Definition createSwapChain_imageCount (capabilities : VkSurfaceCapabilitiesKHR) : Z :=
  let imageCount := to_uint32 (minImageCount capabilities + 1) in
  if (0 <? maxImageCount capabilities) && (maxImageCount capabilities <? imageCount)
  then maxImageCount capabilities
  else imageCount.

(** createSwapChain, lines 498-512: sharing mode, index count and index
    array of the create request. Both optionals are unwrapped before the
    comparison. *)
Definition createSwapChain_sharing (indices : QueueFamilyIndices)
  : result (VkSharingMode * Z * option (list Z)) :=
  match value (graphicsFamily indices) with
  | Err e => Err e
  | Ok g =>
      match value (presentationFamily indices) with
      | Err e => Err e
      | Ok p =>
          let queueFamilyIndices := [g; p] in
          if negb (bool_decide (graphicsFamily indices = presentationFamily indices))
          then Ok (VK_SHARING_MODE_CONCURRENT, 2, Some queueFamilyIndices)
          else Ok (VK_SHARING_MODE_EXCLUSIVE, 0, None)
      end
  end.

(** The family indices a create request hands to the driver: the first
    [queueFamilyIndexCount] entries behind [pQueueFamilyIndices]. *)
Definition sharedQueueFamilies (createInfo : VkSwapchainCreateInfoKHR) : list Z :=
  match pQueueFamilyIndices createInfo with
  | Some a => take (Z.to_nat (queueFamilyIndexCount createInfo)) a
  | None => []
  end.

(** ** Instance layers and extensions *)

Fixpoint layerFound (layerName : string) (availableLayers : list string) : bool :=
  match availableLayers with
  | [] => false
  | layerProperties :: rest =>
      if String.eqb layerName layerProperties then true
      else layerFound layerName rest
  end.

Fixpoint isValidationLayerSupported_scan
  (layers availableLayers : list string) : bool :=
  match layers with
  | [] => true
  | layerName :: rest =>
      if negb (layerFound layerName availableLayers) then false
      else isValidationLayerSupported_scan rest availableLayers
  end.

Definition isValidationLayerSupported (cfg : FrameworkConfig) (drv : VkDriver) : bool :=
  let availableLayers := vkEnumerateInstanceLayerProperties drv in
  isValidationLayerSupported_scan (validationLayers cfg) availableLayers.

Definition getRequiredExtensions (cfg : FrameworkConfig) (drv : VkDriver)
  : list string :=
  let extensions := glfwGetRequiredInstanceExtensions drv in
  if enableValidationLayers cfg
  then extensions ++ [VK_EXT_DEBUG_UTILS_EXTENSION_NAME]
  else extensions.

(** ** Physical device queries *)

Definition hasGraphics (queueFamily : VkQueueFamilyProperties) : bool :=
  negb (Z.land (queueFlags queueFamily) VK_QUEUE_GRAPHICS_BIT =? 0).

(** The body of the range-for in findQueueFamilies; [i] is the [int]
    counter, converted to [uint32_t] where it is stored or passed on. The
    counter itself is not wrapped: it stays below INT_MAX for any list a
    driver can return. *)
Fixpoint findQueueFamilies_loop (drv : VkDriver) (surface device : VkHandle)
  (queueFamilies : list VkQueueFamilyProperties) (i : Z)
  (indices : QueueFamilyIndices) : QueueFamilyIndices :=
  match queueFamilies with
  | [] => indices
  | queueFamily :: rest =>
      let indices :=
        if hasGraphics queueFamily
        then {| graphicsFamily := Some (to_uint32 i);
                presentationFamily := presentationFamily indices |}
        else indices in
      if IsComplete indices then indices
      else
        let presentationSupport :=
          vkGetPhysicalDeviceSurfaceSupportKHR drv device (to_uint32 i) surface in
        let indices :=
          if presentationSupport
          then {| graphicsFamily := graphicsFamily indices;
                  presentationFamily := Some (to_uint32 i) |}
          else indices in
        findQueueFamilies_loop drv surface device rest (i + 1) indices
  end.

Definition findQueueFamilies (drv : VkDriver) (surface device : VkHandle)
  : QueueFamilyIndices :=
  let indices := {| graphicsFamily := None; presentationFamily := None |} in
  let queueFamilies := vkGetPhysicalDeviceQueueFamilyProperties drv device in
  findQueueFamilies_loop drv surface device queueFamilies 0 indices.

Definition checkDeviceExtensionSupport (cfg : FrameworkConfig) (drv : VkDriver)
  (device : VkHandle) : bool :=
  let availableExtensions := vkEnumerateDeviceExtensionProperties drv device in
  let requiredExtensions : gset string := list_to_set (deviceExtensions cfg) in
  let requiredExtensions :=
    foldl (λ required extension, required ∖ {[extension]})
          requiredExtensions availableExtensions in
  bool_decide (requiredExtensions = ∅).

Definition querySwapChainSupport (drv : VkDriver) (surface device : VkHandle)
  : SwapChainSupportDetails :=
  let formats := vkGetPhysicalDeviceSurfaceFormatsKHR drv device surface in
  let modes := vkGetPhysicalDeviceSurfacePresentModesKHR drv device surface in
  {| surfaceCapabilities :=
       vkGetPhysicalDeviceSurfaceCapabilitiesKHR drv device surface;
     surfaceFormats :=
       if negb (Z.of_nat (length formats) =? 0) then formats else [];
     presentationModes :=
       if negb (Z.of_nat (length modes) =? 0) then modes else [] |}.

Definition vector_empty {A} (v : list A) : bool :=
  match v with [] => true | _ => false end.

Definition isDeviceSuitable (cfg : FrameworkConfig) (drv : VkDriver)
  (surface device : VkHandle) : bool :=
  let indices := findQueueFamilies drv surface device in
  let supportedExtensions := checkDeviceExtensionSupport cfg drv device in
  let isSwapChainAdequate :=
    if supportedExtensions
    then
      let swapChainSupport := querySwapChainSupport drv surface device in
      negb (vector_empty (surfaceFormats swapChainSupport))
      && negb (vector_empty (presentationModes swapChainSupport))
    else false in
  IsComplete indices && supportedExtensions && isSwapChainAdequate.

(** ** The members of the class and the call log *)

Inductive Resource :=
  | ResGlfw
  | ResWindow
  | ResInstance
  | ResDebugMessenger
  | ResSurface
  | ResDevice
  | ResSwapchain
  | ResImageView.

Inductive Call :=
  | Acquire (r : Resource) (h : VkHandle)
  | Release (r : Resource) (h : VkHandle).

Record Framework := {
  window : VkHandle;
  instance : VkHandle;
  debugMessenger : VkHandle;
  surface : VkHandle;
  physicalDevice : VkHandle;
  device : VkHandle;
  graphicsQueue : VkHandle;
  presentationQueue : VkHandle;
  swapChain : VkHandle;
  swapChainImages : list VkHandle;
  swapChainImageFormat : VkFormat;
  swapChainExtent : VkExtent2D;
  swapChainImageViews : list VkHandle;
  calls : list Call     (* every create and destroy call made so far, oldest first *)
}.

(** A newly constructed [Framework]: [physicalDevice] is initialised to
    VK_NULL_HANDLE, the vectors are empty. *)
Definition newFramework : Framework := {|
  window := VK_NULL_HANDLE; instance := VK_NULL_HANDLE;
  debugMessenger := VK_NULL_HANDLE; surface := VK_NULL_HANDLE;
  physicalDevice := VK_NULL_HANDLE; device := VK_NULL_HANDLE;
  graphicsQueue := VK_NULL_HANDLE; presentationQueue := VK_NULL_HANDLE;
  swapChain := VK_NULL_HANDLE; swapChainImages := [];
  swapChainImageFormat := 0; swapChainExtent := {| width := 0; height := 0 |};
  swapChainImageViews := []; calls := []
|}.

Definition set_window (h : VkHandle) (s : Framework) : Framework :=
  {| window := h; instance := instance s; debugMessenger := debugMessenger s;
     surface := surface s; physicalDevice := physicalDevice s; device := device s;
     graphicsQueue := graphicsQueue s; presentationQueue := presentationQueue s;
     swapChain := swapChain s; swapChainImages := swapChainImages s;
     swapChainImageFormat := swapChainImageFormat s;
     swapChainExtent := swapChainExtent s;
     swapChainImageViews := swapChainImageViews s; calls := calls s |}.

Definition set_instance (h : VkHandle) (s : Framework) : Framework :=
  {| window := window s; instance := h; debugMessenger := debugMessenger s;
     surface := surface s; physicalDevice := physicalDevice s; device := device s;
     graphicsQueue := graphicsQueue s; presentationQueue := presentationQueue s;
     swapChain := swapChain s; swapChainImages := swapChainImages s;
     swapChainImageFormat := swapChainImageFormat s;
     swapChainExtent := swapChainExtent s;
     swapChainImageViews := swapChainImageViews s; calls := calls s |}.

Definition set_debugMessenger (h : VkHandle) (s : Framework) : Framework :=
  {| window := window s; instance := instance s; debugMessenger := h;
     surface := surface s; physicalDevice := physicalDevice s; device := device s;
     graphicsQueue := graphicsQueue s; presentationQueue := presentationQueue s;
     swapChain := swapChain s; swapChainImages := swapChainImages s;
     swapChainImageFormat := swapChainImageFormat s;
     swapChainExtent := swapChainExtent s;
     swapChainImageViews := swapChainImageViews s; calls := calls s |}.

Definition set_surface (h : VkHandle) (s : Framework) : Framework :=
  {| window := window s; instance := instance s; debugMessenger := debugMessenger s;
     surface := h; physicalDevice := physicalDevice s; device := device s;
     graphicsQueue := graphicsQueue s; presentationQueue := presentationQueue s;
     swapChain := swapChain s; swapChainImages := swapChainImages s;
     swapChainImageFormat := swapChainImageFormat s;
     swapChainExtent := swapChainExtent s;
     swapChainImageViews := swapChainImageViews s; calls := calls s |}.

Definition set_physicalDevice (h : VkHandle) (s : Framework) : Framework :=
  {| window := window s; instance := instance s; debugMessenger := debugMessenger s;
     surface := surface s; physicalDevice := h; device := device s;
     graphicsQueue := graphicsQueue s; presentationQueue := presentationQueue s;
     swapChain := swapChain s; swapChainImages := swapChainImages s;
     swapChainImageFormat := swapChainImageFormat s;
     swapChainExtent := swapChainExtent s;
     swapChainImageViews := swapChainImageViews s; calls := calls s |}.

(** [device], [graphicsQueue] and [presentationQueue] are written together
    at the end of createLogicalDevice. *)
Definition set_device (h gq pq : VkHandle) (s : Framework) : Framework :=
  {| window := window s; instance := instance s; debugMessenger := debugMessenger s;
     surface := surface s; physicalDevice := physicalDevice s; device := h;
     graphicsQueue := gq; presentationQueue := pq;
     swapChain := swapChain s; swapChainImages := swapChainImages s;
     swapChainImageFormat := swapChainImageFormat s;
     swapChainExtent := swapChainExtent s;
     swapChainImageViews := swapChainImageViews s; calls := calls s |}.

(** The four swapchain members are written together at the end of
    createSwapChain. *)
Definition set_swapChain (h : VkHandle) (images : list VkHandle)
  (fmt : VkFormat) (extent : VkExtent2D) (s : Framework) : Framework :=
  {| window := window s; instance := instance s; debugMessenger := debugMessenger s;
     surface := surface s; physicalDevice := physicalDevice s; device := device s;
     graphicsQueue := graphicsQueue s; presentationQueue := presentationQueue s;
     swapChain := h; swapChainImages := images;
     swapChainImageFormat := fmt; swapChainExtent := extent;
     swapChainImageViews := swapChainImageViews s; calls := calls s |}.

Definition set_swapChainImageViews (views : list VkHandle) (s : Framework)
  : Framework :=
  {| window := window s; instance := instance s; debugMessenger := debugMessenger s;
     surface := surface s; physicalDevice := physicalDevice s; device := device s;
     graphicsQueue := graphicsQueue s; presentationQueue := presentationQueue s;
     swapChain := swapChain s; swapChainImages := swapChainImages s;
     swapChainImageFormat := swapChainImageFormat s;
     swapChainExtent := swapChainExtent s;
     swapChainImageViews := views; calls := calls s |}.

Definition logCall (c : Call) (s : Framework) : Framework :=
  {| window := window s; instance := instance s; debugMessenger := debugMessenger s;
     surface := surface s; physicalDevice := physicalDevice s; device := device s;
     graphicsQueue := graphicsQueue s; presentationQueue := presentationQueue s;
     swapChain := swapChain s; swapChainImages := swapChainImages s;
     swapChainImageFormat := swapChainImageFormat s;
     swapChainExtent := swapChainExtent s;
     swapChainImageViews := swapChainImageViews s; calls := calls s ++ [c] |}.

(** ** Stages: state passing with exceptions

    A stage either returns normally or throws; the members keep the
    values they had when the exception left the stage. *)

Definition Stage (A : Type) : Type := Framework → result A * Framework.

Definition ret {A} (a : A) : Stage A := λ s, (Ok a, s).
Definition throw {A} (e : Error) : Stage A := λ s, (Err e, s).
Definition bind {A B} (m : Stage A) (k : A → Stage B) : Stage B :=
  λ s, match m s with
       | (Ok a, s') => k a s'
       | (Err e, s') => (Err e, s')
       end.
Definition get : Stage Framework := λ s, (Ok s, s).
Definition modify (f : Framework → Framework) : Stage unit := λ s, (Ok tt, f s).
Definition lift {A} (r : result A) : Stage A := λ s, (r, s).

Notation "'do' x <- m ; k" := (bind m (λ x, k))
  (at level 10, x name, m at level 100, k at level 200,
   format "'[v' 'do'  x  <-  m ; '/' k ']'").
Notation "m1 ;; m2" := (bind m1 (λ _, m2))
  (at level 100, right associativity).

Definition succeeded (r : VkResult) : bool := r =? VK_SUCCESS.

(** ** The stages of initWindow and initVulkan *)

Definition initWindow (drv : VkDriver) : Stage unit :=
  modify (logCall (Acquire ResGlfw VK_NULL_HANDLE)) ;;
  let w := glfwCreateWindow drv 800 600 "Vulkan" in
  modify (set_window w) ;;
  modify (logCall (Acquire ResWindow w)).

(** The callback installed by initDebugMessengerCreateInfo writes the
    message to std::cerr and returns VK_FALSE; it is not part of the
    record. *)
Definition initDebugMessengerCreateInfo : VkDebugUtilsMessengerCreateInfoEXT :=
  {| messageSeverity :=
       Z.lor VK_DEBUG_UTILS_MESSAGE_SEVERITY_VERBOSE_BIT_EXT
         (Z.lor VK_DEBUG_UTILS_MESSAGE_SEVERITY_WARNING_BIT_EXT
                VK_DEBUG_UTILS_MESSAGE_SEVERITY_ERROR_BIT_EXT);
     messageType :=
       Z.lor VK_DEBUG_UTILS_MESSAGE_TYPE_GENERAL_BIT_EXT
         (Z.lor VK_DEBUG_UTILS_MESSAGE_TYPE_VALIDATION_BIT_EXT
                VK_DEBUG_UTILS_MESSAGE_TYPE_PERFORMANCE_BIT_EXT) |}.

Definition createInstance (cfg : FrameworkConfig) (drv : VkDriver) : Stage unit :=
  if enableValidationLayers cfg && negb (isValidationLayerSupported cfg drv)
  then throw UnsupportedLayer
  else
    let extensions := getRequiredExtensions cfg drv in
    let createInfo :=
      if enableValidationLayers cfg
      then {| ici_enabledExtensionNames := extensions;
              ici_enabledLayerNames := validationLayers cfg;
              ici_pNext := Some initDebugMessengerCreateInfo |}
      else {| ici_enabledExtensionNames := extensions;
              ici_enabledLayerNames := [];
              ici_pNext := None |} in
    let '(res, h) := vkCreateInstance drv createInfo in
    if negb (succeeded res) then throw InstanceCreationFailed
    else modify (set_instance h) ;; modify (logCall (Acquire ResInstance h)).

(** The entry point is looked up by name; the out-parameter keeps its old
    value when the entry point is missing. *)
Definition createDebugUtilsMessengerEXT (drv : VkDriver) (instance : VkHandle)
  (pCreateInfo : VkDebugUtilsMessengerCreateInfoEXT) (pDebugMessenger : VkHandle)
  : VkResult * VkHandle :=
  if vkGetInstanceProcAddr drv instance "vkCreateDebugUtilsMessengerEXT"
  then vkCreateDebugUtilsMessengerEXT drv instance pCreateInfo
  else (VK_ERROR_EXTENSION_NOT_PRESENT, pDebugMessenger).

Definition destroyDebugUtilsMessengerEXT (drv : VkDriver)
  (instance debugMessenger : VkHandle) : Stage unit :=
  if vkGetInstanceProcAddr drv instance "vkDestroyDebugUtilsMessengerEXT"
  then modify (logCall (Release ResDebugMessenger debugMessenger))
  else ret tt.

Definition createDebugMessenger (cfg : FrameworkConfig) (drv : VkDriver)
  : Stage unit :=
  if negb (enableValidationLayers cfg) then ret tt
  else
    do s <- get;
    let createInfo := initDebugMessengerCreateInfo in
    let '(res, h) :=
      createDebugUtilsMessengerEXT drv (instance s) createInfo (debugMessenger s) in
    if negb (succeeded res) then throw DiagnosticsSetupFailed
    else
      modify (set_debugMessenger h) ;;
      modify (logCall (Acquire ResDebugMessenger h)).

Definition createSurface (drv : VkDriver) : Stage unit :=
  do s <- get;
  let '(res, h) := glfwCreateWindowSurface drv (instance s) (window s) in
  if negb (succeeded res) then throw SurfaceCreationFailed
  else modify (set_surface h) ;; modify (logCall (Acquire ResSurface h)).

(** The range-for of selectPhysicalDevice: the first suitable device is
    stored and the loop is left. *)
Fixpoint selectPhysicalDevice_loop (cfg : FrameworkConfig) (drv : VkDriver)
  (devices : list VkHandle) (s : Framework) : Framework :=
  match devices with
  | [] => s
  | device :: rest =>
      if isDeviceSuitable cfg drv (surface s) device
      then set_physicalDevice device s
      else selectPhysicalDevice_loop cfg drv rest s
  end.

Definition selectPhysicalDevice (cfg : FrameworkConfig) (drv : VkDriver)
  : Stage unit :=
  do s <- get;
  let devices := vkEnumeratePhysicalDevices drv (instance s) in
  let deviceCount := Z.of_nat (length devices) in
  if deviceCount =? 0 then throw NoAcceleratorFound
  else
    modify (selectPhysicalDevice_loop cfg drv devices) ;;
    do s <- get;
    if physicalDevice s =? VK_NULL_HANDLE then throw NoSuitableAccelerator
    else ret tt.

(** The contents of a [std::set<uint32_t>] built from two values, in
    iteration (ascending) order. *)
Definition uniqueQueueFamilies (g p : Z) : list Z :=
  if g =? p then [g] else if g <? p then [g; p] else [p; g].

Definition createLogicalDevice (cfg : FrameworkConfig) (drv : VkDriver)
  : Stage unit :=
  do s <- get;
  let indices := findQueueFamilies drv (surface s) (physicalDevice s) in
  do g <- lift (value (graphicsFamily indices));
  do p <- lift (value (presentationFamily indices));
  let queueCreateInfos :=
    (λ queueFamily, {| queueFamilyIndex := queueFamily; dq_queueCount := 1 |})
      <$> uniqueQueueFamilies g p in
  let createInfo :=
    {| queueCreateInfos := queueCreateInfos;
       dci_enabledExtensionNames := deviceExtensions cfg;
       dci_enabledLayerNames :=
         if enableValidationLayers cfg then validationLayers cfg else [] |} in
  let '(res, h) := vkCreateDevice drv (physicalDevice s) createInfo in
  if negb (succeeded res) then throw DeviceCreationFailed
  else
    modify (set_device h (vkGetDeviceQueue drv h g 0) (vkGetDeviceQueue drv h p 0)) ;;
    modify (logCall (Acquire ResDevice h)).

(** createSwapChain up to the call of vkCreateSwapchainKHR: the create
    request, or the exception thrown on the way. *)
Definition createSwapChain_createInfo (cfg : FrameworkConfig) (drv : VkDriver)
  (surface physicalDevice : VkHandle) : result VkSwapchainCreateInfoKHR :=
  let swapChainSupport := querySwapChainSupport drv surface physicalDevice in
  match chooseSwapSurfaceFormat (surfaceFormats swapChainSupport) with
  | Err e => Err e
  | Ok surfaceFormat =>
      let presentationMode :=
        chooseSwapPresentationMode (presentationModes swapChainSupport) in
      let extent := chooseSwapExtent cfg (surfaceCapabilities swapChainSupport) in
      let imageCount :=
        createSwapChain_imageCount (surfaceCapabilities swapChainSupport) in
      let indices := findQueueFamilies drv surface physicalDevice in
      match createSwapChain_sharing indices with
      | Err e => Err e
      | Ok (sharingMode, indexCount, pIndices) =>
          Ok {| sci_surface := surface;
                sci_minImageCount := imageCount;
                imageFormat := format surfaceFormat;
                imageColorSpace := colorSpace surfaceFormat;
                imageExtent := extent;
                imageArrayLayers := 1;
                imageUsage := VK_IMAGE_USAGE_COLOR_ATTACHMENT_BIT;
                imageSharingMode := sharingMode;
                queueFamilyIndexCount := indexCount;
                pQueueFamilyIndices := pIndices;
                preTransform :=
                  currentTransform (surfaceCapabilities swapChainSupport);
                compositeAlpha := VK_COMPOSITE_ALPHA_OPAQUE_BIT_KHR;
                presentMode := presentationMode;
                clipped := true;
                oldSwapchain := VK_NULL_HANDLE |}
      end
  end.

Definition createSwapChain (cfg : FrameworkConfig) (drv : VkDriver) : Stage unit :=
  do s <- get;
  do createInfo <-
    lift (createSwapChain_createInfo cfg drv (surface s) (physicalDevice s));
  let '(res, h) := vkCreateSwapchainKHR drv (device s) createInfo in
  if negb (succeeded res) then throw SwapchainCreationFailed
  else
    let images := vkGetSwapchainImagesKHR drv (device s) h in
    modify (set_swapChain h images
              (imageFormat createInfo) (imageExtent createInfo)) ;;
    modify (logCall (Acquire ResSwapchain h)).

Definition imageViewCreateInfo (image : VkHandle) (fmt : VkFormat)
  : VkImageViewCreateInfo :=
  {| ivi_image := image;
     viewType := VK_IMAGE_VIEW_TYPE_2D;
     ivi_format := fmt;
     components :=
       (VK_COMPONENT_SWIZZLE_IDENTITY, VK_COMPONENT_SWIZZLE_IDENTITY,
        VK_COMPONENT_SWIZZLE_IDENTITY, VK_COMPONENT_SWIZZLE_IDENTITY);
     aspectMask := VK_IMAGE_ASPECT_COLOR_BIT;
     baseMipLevel := 0;
     levelCount := 1;
     baseArrayLayer := 0;
     layerCount := 1 |}.

(** The for loop of createImageViews over [swapChainImages], from index
    [i] on; the view is stored in slot [i]. *)
Fixpoint createImageViews_loop (drv : VkDriver) (images : list VkHandle)
  (i : nat) : Stage unit :=
  match images with
  | [] => ret tt
  | image :: rest =>
      do s <- get;
      let createInfo := imageViewCreateInfo image (swapChainImageFormat s) in
      let '(res, h) := vkCreateImageView drv (device s) createInfo in
      if negb (succeeded res) then throw ImageViewCreationFailed
      else
        modify (set_swapChainImageViews (<[i := h]> (swapChainImageViews s))) ;;
        modify (logCall (Acquire ResImageView h)) ;;
        createImageViews_loop drv rest (S i)
  end.

Definition createImageViews (drv : VkDriver) : Stage unit :=
  do s <- get;
  modify (set_swapChainImageViews
            (resize (length (swapChainImages s)) VK_NULL_HANDLE
                    (swapChainImageViews s))) ;;
  createImageViews_loop drv (swapChainImages s) 0.

Definition initVulkan (cfg : FrameworkConfig) (drv : VkDriver) : Stage unit :=
  createInstance cfg drv ;;
  createDebugMessenger cfg drv ;;
  createSurface drv ;;
  selectPhysicalDevice cfg drv ;;
  createLogicalDevice cfg drv ;;
  createSwapChain cfg drv ;;
  createImageViews drv.

(** ** cleanup *)

Fixpoint cleanup_imageViews (views : list VkHandle) : Stage unit :=
  match views with
  | [] => ret tt
  | imageView :: rest =>
      modify (logCall (Release ResImageView imageView)) ;;
      cleanup_imageViews rest
  end.

Definition cleanup (cfg : FrameworkConfig) (drv : VkDriver) : Stage unit :=
  do s <- get;
  cleanup_imageViews (swapChainImageViews s) ;;
  modify (logCall (Release ResSwapchain (swapChain s))) ;;
  modify (logCall (Release ResDevice (device s))) ;;
  (if enableValidationLayers cfg
   then destroyDebugUtilsMessengerEXT drv (instance s) (debugMessenger s)
   else ret tt) ;;
  modify (logCall (Release ResSurface (surface s))) ;;
  modify (logCall (Release ResInstance (instance s))) ;;
  modify (logCall (Release ResWindow (window s))) ;;
  modify (logCall (Release ResGlfw VK_NULL_HANDLE)).

(** run(), from its start to the call of mainLoop. *)
Definition startUp (cfg : FrameworkConfig) (drv : VkDriver) : Stage unit :=
  initWindow drv ;; initVulkan cfg drv.


(** createInstance, lines 142-172: the request handed to vkCreateInstance. *)
Definition createInstance_createInfo (cfg : FrameworkConfig) (drv : VkDriver)
  : VkInstanceCreateInfo :=
  let extensions := getRequiredExtensions cfg drv in
  if enableValidationLayers cfg
  then {| ici_enabledExtensionNames := extensions;
          ici_enabledLayerNames := validationLayers cfg;
          ici_pNext := Some initDebugMessengerCreateInfo |}
  else {| ici_enabledExtensionNames := extensions;
          ici_enabledLayerNames := [];
          ici_pNext := None |}.

(** createLogicalDevice, lines 393-432: the request handed to
    vkCreateDevice for the unwrapped family indices [g] and [p]. *)
Definition createLogicalDevice_createInfo (cfg : FrameworkConfig) (g p : Z)
  : VkDeviceCreateInfo :=
  let queueCreateInfos :=
    (λ queueFamily, {| queueFamilyIndex := queueFamily; dq_queueCount := 1 |})
      <$> uniqueQueueFamilies g p in
  {| queueCreateInfos := queueCreateInfos;
     dci_enabledExtensionNames := deviceExtensions cfg;
     dci_enabledLayerNames :=
       if enableValidationLayers cfg then validationLayers cfg else [] |}.

(** ** mainLoop, run and main

    [closeRequested k] is the answer of glfwWindowShouldClose after [k]
    calls of glfwPollEvents. The loop of the source has no bound; here
    [fuel] bounds the number of tests of the flag, and [None] says that
    the bound was reached with the window still open. The result is the
    number of glfwPollEvents calls made. *)
Fixpoint mainLoop (closeRequested : nat → bool) (fuel polls : nat) : option nat :=
  match fuel with
  | O => None
  | S fuel' =>
      if negb (closeRequested polls)
      then mainLoop closeRequested fuel' (S polls)
      else Some polls
  end.

(** An exception thrown by initVulkan leaves run() at once: mainLoop and
    cleanup are not reached. *)
Definition run (cfg : FrameworkConfig) (drv : VkDriver)
  (closeRequested : nat → bool) (fuel : nat)
  : Framework → option (result unit * Framework) :=
  λ s, match startUp cfg drv s with
       | (Err e, s') => Some (Err e, s')
       | (Ok _, s') =>
           match mainLoop closeRequested fuel 0 with
           | None => None
           | Some _ => Some (cleanup cfg drv s')
           end
       end.

Definition EXIT_SUCCESS : Z := 0.
Definition EXIT_FAILURE : Z := 1.

Inductive Outcome :=
  | Exit (status : Z)
  | StillRunning          (* the bound on mainLoop was reached *)
  | Undefined.            (* an access past the end of a vector *)

(** main(): every std::exception is caught and turned into EXIT_FAILURE. *)
Definition main (cfg : FrameworkConfig) (drv : VkDriver)
  (closeRequested : nat → bool) (fuel : nat) : Outcome :=
  match run cfg drv closeRequested fuel newFramework with
  | None => StillRunning
  | Some (Ok _, _) => Exit EXIT_SUCCESS
  | Some (Err VectorOutOfRange, _) => Undefined
  | Some (Err _, _) => Exit EXIT_FAILURE
  end.


(** * Vocabulary of the properties *)

Definition preferredFormat : VkSurfaceFormatKHR :=
  {| format := VK_FORMAT_B8G8R8A8_SRGB;
     colorSpace := VK_COLOR_SPACE_SRGB_NONLINEAR_KHR |}.

Definition undefinedExtent : VkExtent2D :=
  {| width := UINT32_MAX; height := UINT32_MAX |}.

(** [r] is [target] brought into the interval from [lo] to [hi]. *)
Definition clampedTo (lo hi target r : Z) : Prop :=
  lo ≤ r ≤ hi
  ∧ (lo ≤ target ≤ hi → r = target)
  ∧ (target < lo → r = lo)
  ∧ (hi < target → r = hi).

(** The three checks of isDeviceSuitable, as properties of a candidate. *)
Definition QueueComplete (drv : VkDriver) (surface d : VkHandle) : Prop :=
  is_Some (graphicsFamily (findQueueFamilies drv surface d))
  ∧ is_Some (presentationFamily (findQueueFamilies drv surface d)).

Definition ExtensionsSupported (cfg : FrameworkConfig) (drv : VkDriver)
  (d : VkHandle) : Prop :=
  ∀ name, name ∈ deviceExtensions cfg →
          name ∈ vkEnumerateDeviceExtensionProperties drv d.

Definition SwapchainAdequate (drv : VkDriver) (surface d : VkHandle) : Prop :=
  vkGetPhysicalDeviceSurfaceFormatsKHR drv d surface ≠ []
  ∧ vkGetPhysicalDeviceSurfacePresentModesKHR drv d surface ≠ [].

Definition Suitable (cfg : FrameworkConfig) (drv : VkDriver)
  (surface d : VkHandle) : Prop :=
  QueueComplete drv surface d
  ∧ ExtensionsSupported cfg drv d
  ∧ SwapchainAdequate drv surface d.

Definition INT_MAX : Z := 2147483647.

(** Family [k] of the device offers graphics / passes the
    presentation-support query against the surface. *)
Definition offersGraphics (drv : VkDriver) (device : VkHandle) (k : nat) : Prop :=
  ∃ q, vkGetPhysicalDeviceQueueFamilyProperties drv device !! k = Some q
       ∧ hasGraphics q = true.

Definition offersPresentation (drv : VkDriver) (surface device : VkHandle)
  (k : nat) : Prop :=
  (k < length (vkGetPhysicalDeviceQueueFamilyProperties drv device))%nat
  ∧ vkGetPhysicalDeviceSurfaceSupportKHR drv device (Z.of_nat k) surface = true.

Definition firstWith (Q : nat → Prop) (k : nat) : Prop :=
  Q k ∧ ∀ j, (j < k)%nat → ¬ Q j.

(** [k] is the last index below [bound] with the property [Q]. *)
Definition lastBelow (Q : nat → Prop) (bound k : nat) : Prop :=
  (k < bound)%nat ∧ Q k ∧ ∀ j, (k < j < bound)%nat → ¬ Q j.

(** The same two properties for the part [l] of the list that the loop
    still has to visit, [k] counted from its head, the head being family [i]. *)
Definition graphicsAt (l : list VkQueueFamilyProperties) (k : nat) : Prop :=
  ∃ q, l !! k = Some q ∧ hasGraphics q = true.

Definition presentAt (drv : VkDriver) (surface device : VkHandle)
  (l : list VkQueueFamilyProperties) (i : Z) (k : nat) : Prop :=
  (k < length l)%nat
  ∧ vkGetPhysicalDeviceSurfaceSupportKHR drv device
      (to_uint32 (i + Z.of_nat k)) surface = true.

(** The resources acquired, and the resources released, in a call log. *)
Definition acquired (log : list Call) : list Resource :=
  omap (λ c, match c with Acquire r _ => Some r | Release _ _ => None end) log.

Definition released (log : list Call) : list Resource :=
  omap (λ c, match c with Release r _ => Some r | Acquire _ _ => None end) log.

(** [s'] differs from [s] in its log by the acquisition of [rs], in this
    order, and by no release. *)
Definition acquires (rs : list Resource) (s s' : Framework) : Prop :=
  acquired (calls s') = acquired (calls s) ++ rs
  ∧ released (calls s') = released (calls s).

(** The handles acquired, and the handles released, in a call log. *)
Definition acquiredHandles (log : list Call) : list (Resource * VkHandle) :=
  omap (λ c, match c with Acquire r h => Some (r, h) | Release _ _ => None end) log.

Definition releasedHandles (log : list Call) : list (Resource * VkHandle) :=
  omap (λ c, match c with Release r h => Some (r, h) | Acquire _ _ => None end) log.

(** [s'] has the log of [s] followed by calls none of which is a release. *)
Definition onlyAcquires (s s' : Framework) : Prop :=
  ∃ cs, calls s' = calls s ++ cs ∧ released cs = [].

(** [s'] and [s] agree on every member but [swapChainImageViews]. *)
Definition sameButViews (s s' : Framework) : Prop :=
  window s' = window s ∧ instance s' = instance s
  ∧ debugMessenger s' = debugMessenger s ∧ surface s' = surface s
  ∧ physicalDevice s' = physicalDevice s ∧ device s' = device s
  ∧ graphicsQueue s' = graphicsQueue s
  ∧ presentationQueue s' = presentationQueue s
  ∧ swapChain s' = swapChain s ∧ swapChainImages s' = swapChainImages s
  ∧ swapChainImageFormat s' = swapChainImageFormat s
  ∧ swapChainExtent s' = swapChainExtent s.

(** What vkCreateImageView answers for [image] in the state [s]. *)
Definition imageViewFor (drv : VkDriver) (s : Framework) (image : VkHandle)
  : VkResult * VkHandle :=
  vkCreateImageView drv (device s)
    (imageViewCreateInfo image (swapChainImageFormat s)).

(** ** Drivers and configurations to evaluate the stages on *)

(** A small driver:

    One GPU (handle 7) with a single queue family that does graphics and
    presentation, the swapchain extension, one non-preferred format, FIFO
    only, and a surface whose bounds are exactly the 800x600 window. *)

Definition sampleCapabilities : VkSurfaceCapabilitiesKHR :=
  {| minImageCount := 2; maxImageCount := 0;
     currentExtent := {| width := UINT32_MAX; height := UINT32_MAX |};
     minImageExtent := {| width := 800; height := 600 |};
     maxImageExtent := {| width := 800; height := 600 |};
     currentTransform := 1 |}.

Definition sampleDriver : VkDriver :=
  {| glfwCreateWindow := λ _ _ _, 1;
     glfwGetRequiredInstanceExtensions := ["VK_KHR_surface"; "VK_KHR_xcb_surface"];
     glfwCreateWindowSurface := λ _ _, (VK_SUCCESS, 4);
     vkEnumerateInstanceLayerProperties := ["VK_LAYER_KHRONOS_validation"];
     vkCreateInstance := λ _, (VK_SUCCESS, 2);
     vkGetInstanceProcAddr := λ _ _, true;
     vkCreateDebugUtilsMessengerEXT := λ _ _, (VK_SUCCESS, 3);
     vkEnumeratePhysicalDevices := λ _, [7];
     vkGetPhysicalDeviceQueueFamilyProperties :=
       λ _, [{| queueFlags := 15; queueCount := 16 |}];
     vkGetPhysicalDeviceSurfaceSupportKHR := λ _ _ _, true;
     vkEnumerateDeviceExtensionProperties :=
       λ _, ["VK_KHR_maintenance1"; VK_KHR_SWAPCHAIN_EXTENSION_NAME];
     vkGetPhysicalDeviceSurfaceCapabilitiesKHR := λ _ _, sampleCapabilities;
     vkGetPhysicalDeviceSurfaceFormatsKHR :=
       λ _ _, [{| format := VK_FORMAT_B8G8R8A8_UNORM;
                  colorSpace := VK_COLOR_SPACE_SRGB_NONLINEAR_KHR |}];
     vkGetPhysicalDeviceSurfacePresentModesKHR := λ _ _, [VK_PRESENT_MODE_FIFO_KHR];
     vkCreateDevice := λ _ _, (VK_SUCCESS, 8);
     vkGetDeviceQueue := λ _ family _, 100 + family;
     vkCreateSwapchainKHR := λ _ _, (VK_SUCCESS, 9);
     vkGetSwapchainImagesKHR := λ _ _, [20; 21; 22];
     vkCreateImageView := λ _ createInfo, (VK_SUCCESS, 10 + ivi_image createInfo) |}.

(** The driver [drv] with another list of instance layers. *)
Definition withInstanceLayers (availableLayers : list string) (drv : VkDriver)
  : VkDriver :=
  {| glfwCreateWindow := glfwCreateWindow drv;
     glfwGetRequiredInstanceExtensions := glfwGetRequiredInstanceExtensions drv;
     glfwCreateWindowSurface := glfwCreateWindowSurface drv;
     vkEnumerateInstanceLayerProperties := availableLayers;
     vkCreateInstance := vkCreateInstance drv;
     vkGetInstanceProcAddr := vkGetInstanceProcAddr drv;
     vkCreateDebugUtilsMessengerEXT := vkCreateDebugUtilsMessengerEXT drv;
     vkEnumeratePhysicalDevices := vkEnumeratePhysicalDevices drv;
     vkGetPhysicalDeviceQueueFamilyProperties :=
       vkGetPhysicalDeviceQueueFamilyProperties drv;
     vkGetPhysicalDeviceSurfaceSupportKHR := vkGetPhysicalDeviceSurfaceSupportKHR drv;
     vkEnumerateDeviceExtensionProperties := vkEnumerateDeviceExtensionProperties drv;
     vkGetPhysicalDeviceSurfaceCapabilitiesKHR :=
       vkGetPhysicalDeviceSurfaceCapabilitiesKHR drv;
     vkGetPhysicalDeviceSurfaceFormatsKHR := vkGetPhysicalDeviceSurfaceFormatsKHR drv;
     vkGetPhysicalDeviceSurfacePresentModesKHR :=
       vkGetPhysicalDeviceSurfacePresentModesKHR drv;
     vkCreateDevice := vkCreateDevice drv;
     vkGetDeviceQueue := vkGetDeviceQueue drv;
     vkCreateSwapchainKHR := vkCreateSwapchainKHR drv;
     vkGetSwapchainImagesKHR := vkGetSwapchainImagesKHR drv;
     vkCreateImageView := vkCreateImageView drv |}.

(** The driver [drv] with other queue families and another answer to the
    presentation-support query, the same for every device. *)
Definition withQueueFamilies (families : list VkQueueFamilyProperties)
  (support : Z → bool) (drv : VkDriver) : VkDriver :=
  {| glfwCreateWindow := glfwCreateWindow drv;
     glfwGetRequiredInstanceExtensions := glfwGetRequiredInstanceExtensions drv;
     glfwCreateWindowSurface := glfwCreateWindowSurface drv;
     vkEnumerateInstanceLayerProperties := vkEnumerateInstanceLayerProperties drv;
     vkCreateInstance := vkCreateInstance drv;
     vkGetInstanceProcAddr := vkGetInstanceProcAddr drv;
     vkCreateDebugUtilsMessengerEXT := vkCreateDebugUtilsMessengerEXT drv;
     vkEnumeratePhysicalDevices := vkEnumeratePhysicalDevices drv;
     vkGetPhysicalDeviceQueueFamilyProperties := λ _, families;
     vkGetPhysicalDeviceSurfaceSupportKHR := λ _ i _, support i;
     vkEnumerateDeviceExtensionProperties := vkEnumerateDeviceExtensionProperties drv;
     vkGetPhysicalDeviceSurfaceCapabilitiesKHR :=
       vkGetPhysicalDeviceSurfaceCapabilitiesKHR drv;
     vkGetPhysicalDeviceSurfaceFormatsKHR := vkGetPhysicalDeviceSurfaceFormatsKHR drv;
     vkGetPhysicalDeviceSurfacePresentModesKHR :=
       vkGetPhysicalDeviceSurfacePresentModesKHR drv;
     vkCreateDevice := vkCreateDevice drv;
     vkGetDeviceQueue := vkGetDeviceQueue drv;
     vkCreateSwapchainKHR := vkCreateSwapchainKHR drv;
     vkGetSwapchainImagesKHR := vkGetSwapchainImagesKHR drv;
     vkCreateImageView := vkCreateImageView drv |}.

(** The sample GPU with two queue families, each doing graphics and
    presentation. *)
Definition twoGraphicsDriver : VkDriver :=
  withQueueFamilies
    [ {| queueFlags := 15; queueCount := 16 |};
      {| queueFlags := 15; queueCount := 2 |} ]
    (λ _, true) sampleDriver.

Definition withWindowSize (w h : Z) (cfg : FrameworkConfig) : FrameworkConfig :=
  {| WINDOW_WIDTH := w; WINDOW_HEIGHT := h;
     validationLayers := validationLayers cfg;
     deviceExtensions := deviceExtensions cfg;
     enableValidationLayers := enableValidationLayers cfg |}.

(** A snapshot whose current extent has the marker in its width only. *)
Definition widthOnlyUndefined : VkSurfaceCapabilitiesKHR :=
  {| minImageCount := 2; maxImageCount := 0;
     currentExtent := {| width := UINT32_MAX; height := 600 |};
     minImageExtent := {| width := 1; height := 1 |};
     maxImageExtent := {| width := 4096; height := 4096 |};
     currentTransform := 1 |}.


(** The sample GPU without any queue family: no device is suitable. *)
Definition headlessDriver : VkDriver :=
  withQueueFamilies [] (λ _, false) sampleDriver.


(** The driver [drv] with other physical devices, each with its own
    list of device extensions. *)
Definition withPhysicalDevices (devices : list VkHandle)
  (extensions : VkHandle → list string) (drv : VkDriver) : VkDriver :=
  {| glfwCreateWindow := glfwCreateWindow drv;
     glfwGetRequiredInstanceExtensions := glfwGetRequiredInstanceExtensions drv;
     glfwCreateWindowSurface := glfwCreateWindowSurface drv;
     vkEnumerateInstanceLayerProperties := vkEnumerateInstanceLayerProperties drv;
     vkCreateInstance := vkCreateInstance drv;
     vkGetInstanceProcAddr := vkGetInstanceProcAddr drv;
     vkCreateDebugUtilsMessengerEXT := vkCreateDebugUtilsMessengerEXT drv;
     vkEnumeratePhysicalDevices := λ _, devices;
     vkGetPhysicalDeviceQueueFamilyProperties :=
       vkGetPhysicalDeviceQueueFamilyProperties drv;
     vkGetPhysicalDeviceSurfaceSupportKHR := vkGetPhysicalDeviceSurfaceSupportKHR drv;
     vkEnumerateDeviceExtensionProperties := extensions;
     vkGetPhysicalDeviceSurfaceCapabilitiesKHR :=
       vkGetPhysicalDeviceSurfaceCapabilitiesKHR drv;
     vkGetPhysicalDeviceSurfaceFormatsKHR := vkGetPhysicalDeviceSurfaceFormatsKHR drv;
     vkGetPhysicalDeviceSurfacePresentModesKHR :=
       vkGetPhysicalDeviceSurfacePresentModesKHR drv;
     vkCreateDevice := vkCreateDevice drv;
     vkGetDeviceQueue := vkGetDeviceQueue drv;
     vkCreateSwapchainKHR := vkCreateSwapchainKHR drv;
     vkGetSwapchainImagesKHR := vkGetSwapchainImagesKHR drv;
     vkCreateImageView := vkCreateImageView drv |}.

(** Three GPUs, 5, 7 and 9 in enumeration order; GPU 5 lacks the swapchain
    extension, the other two are like the sample GPU. *)
Definition threeGpuDriver : VkDriver :=
  withPhysicalDevices [5; 7; 9]
    (λ d, if d =? 5 then ["VK_KHR_maintenance1"]
          else ["VK_KHR_maintenance1"; VK_KHR_SWAPCHAIN_EXTENSION_NAME])
    sampleDriver.

(** The same three GPUs, none of them with the swapchain extension. *)
Definition computeOnlyDriver : VkDriver :=
  withPhysicalDevices [5; 7; 9] (λ _, ["VK_KHR_maintenance1"]) sampleDriver.

(** No GPU at all. *)
Definition noGpuDriver : VkDriver :=
  withPhysicalDevices [] (λ _, []) sampleDriver.

(** The sample GPU with two graphics families of which only the second
    can present, and with three families laid out as graphics,
    presentation, graphics plus presentation. *)
Definition lateSupportDriver : VkDriver :=
  withQueueFamilies
    [ {| queueFlags := 1; queueCount := 1 |};
      {| queueFlags := 1; queueCount := 1 |} ]
    (λ i, i =? 1) sampleDriver.

Definition splitFamiliesDriver : VkDriver :=
  withQueueFamilies
    [ {| queueFlags := 4; queueCount := 1 |};
      {| queueFlags := 4; queueCount := 1 |};
      {| queueFlags := 1; queueCount := 1 |};
      {| queueFlags := 1; queueCount := 1 |} ]
    (λ i, (i =? 0) || (i =? 1)) sampleDriver.

(** * Properties *)

(** ** Swapchain negotiation *)

Lemma isPreferredFormat_true f : isPreferredFormat f = true ↔ f = preferredFormat.
Proof.
  destruct f as [fm cs]. unfold isPreferredFormat, preferredFormat. simpl.
  rewrite andb_true_iff, !Z.eqb_eq. split.
  - intros [-> ->]. reflexivity.
  - intros [= -> ->]. done.
Qed.

Lemma chooseSwapSurfaceFormat_scan_Some formats f :
  chooseSwapSurfaceFormat_scan formats = Some f → f = preferredFormat ∧ f ∈ formats.
Proof.
  induction formats as [|a rest IH]; simpl; [done|].
  destruct (isPreferredFormat a) eqn:E.
  - intros [= <-]. apply isPreferredFormat_true in E. split; [done | left].
  - intros H. destruct (IH H) as [? ?]. split; [done | by right].
Qed.

Lemma chooseSwapSurfaceFormat_scan_None formats :
  chooseSwapSurfaceFormat_scan formats = None ↔ preferredFormat ∉ formats.
Proof.
  induction formats as [|a rest IH]; simpl.
  - split; [intros _ | done]. apply not_elem_of_nil.
  - rewrite not_elem_of_cons. destruct (isPreferredFormat a) eqn:E.
    + apply isPreferredFormat_true in E. split; [done | intros [? _]; congruence].
    + rewrite IH. split; [|tauto]. intros H. split; [|done].
      intros Heq. symmetry in Heq. apply isPreferredFormat_true in Heq. congruence.
Qed.

(** C4. For a non-empty list of supported formats the choice is the
    (B8G8R8A8 sRGB, sRGB-nonlinear) pair whenever that pair occurs in the
    list, at whatever position, and the element at index 0 otherwise. *)
Theorem chooseSwapSurfaceFormat_prefers_bgra_srgb
  (availableFormats : list VkSurfaceFormatKHR) :
  availableFormats ≠ [] →
  (preferredFormat ∈ availableFormats →
     chooseSwapSurfaceFormat availableFormats = Ok preferredFormat)
  ∧ (preferredFormat ∉ availableFormats →
     ∃ first, availableFormats !! 0%nat = Some first
              ∧ chooseSwapSurfaceFormat availableFormats = Ok first).
Proof.
  intros Hne. unfold chooseSwapSurfaceFormat. split.
  - intros Hin.
    destruct (chooseSwapSurfaceFormat_scan availableFormats) as [f|] eqn:E.
    + apply chooseSwapSurfaceFormat_scan_Some in E as [-> _]. reflexivity.
    + apply chooseSwapSurfaceFormat_scan_None in E. contradiction.
  - intros Hnin. apply chooseSwapSurfaceFormat_scan_None in Hnin. rewrite Hnin.
    destruct availableFormats as [|first rest]; [done|].
    exists first. done.
Qed.

Lemma chooseSwapSurfaceFormat_prefers_bgra_srgb_witness :
  chooseSwapSurfaceFormat
    [ {| format := VK_FORMAT_B8G8R8A8_UNORM; colorSpace := 0 |}; preferredFormat ]
  = Ok preferredFormat.
Proof.
  refine (proj1 (chooseSwapSurfaceFormat_prefers_bgra_srgb
                   [ {| format := VK_FORMAT_B8G8R8A8_UNORM; colorSpace := 0 |};
                     preferredFormat ] _) _).
  - discriminate.
  - right. left.
Defined.

(** C5. The mailbox mode is chosen when it occurs anywhere in the list;
    otherwise FIFO is chosen, whether or not FIFO is in the list. *)
Theorem chooseSwapPresentationMode_mailbox_or_fifo
  (availablePresentationModes : list VkPresentModeKHR) :
  chooseSwapPresentationMode availablePresentationModes =
    if bool_decide (VK_PRESENT_MODE_MAILBOX_KHR ∈ availablePresentationModes)
    then VK_PRESENT_MODE_MAILBOX_KHR
    else VK_PRESENT_MODE_FIFO_KHR.
Proof.
  induction availablePresentationModes as [|m rest IH];
    cbn [chooseSwapPresentationMode].
  - rewrite bool_decide_eq_false_2; [done | apply not_elem_of_nil].
  - destruct (m =? VK_PRESENT_MODE_MAILBOX_KHR) eqn:E.
    + apply Z.eqb_eq in E. subst m.
      rewrite bool_decide_eq_true_2; [done | left].
    + apply Z.eqb_neq in E. rewrite IH.
      rewrite (bool_decide_ext (VK_PRESENT_MODE_MAILBOX_KHR ∈ m :: rest)
                 (VK_PRESENT_MODE_MAILBOX_KHR ∈ rest)); [done|].
      rewrite elem_of_cons. split; [|tauto].
      intros [Heq|?]; [congruence | done].
Qed.

Lemma max_min_clampedTo lo hi target :
  lo ≤ hi → clampedTo lo hi target (Z.max lo (Z.min hi target)).
Proof. unfold clampedTo. lia. Qed.

(** C6 as stated fails: a current extent that is not the pair
    (0xFFFFFFFF, 0xFFFFFFFF) but carries 0xFFFFFFFF in its width is not
    returned verbatim; the clamped window size is returned in its place. *)
Lemma chooseSwapExtent_ignores_height :
  currentExtent widthOnlyUndefined ≠ undefinedExtent
  ∧ chooseSwapExtent debugConfig widthOnlyUndefined = {| width := 800; height := 600 |}
  ∧ chooseSwapExtent debugConfig widthOnlyUndefined ≠ currentExtent widthOnlyUndefined.
Proof. repeat split; discriminate. Qed.

(** C6, amended. The test is on the width alone: when the width of
    currentExtent is not 0xFFFFFFFF, currentExtent is returned verbatim;
    when it is 0xFFFFFFFF (whatever the height), the window size is
    clamped per axis into the bounds of the snapshot. With the 800x600
    window and bounds (400,300)..(1920,1080) the result is (800,600); a
    100x100 window with the same bounds gives (400,300). *)
Theorem chooseSwapExtent_width_sentinel
  (cfg : FrameworkConfig) (capabilities : VkSurfaceCapabilitiesKHR) :
  let lo := minImageExtent capabilities in
  let hi := maxImageExtent capabilities in
  let r := chooseSwapExtent cfg capabilities in
  (width (currentExtent capabilities) ≠ UINT32_MAX →
     r = currentExtent capabilities)
  ∧ (width (currentExtent capabilities) = UINT32_MAX →
     width lo ≤ width hi → height lo ≤ height hi →
     clampedTo (width lo) (width hi) (to_uint32 (WINDOW_WIDTH cfg)) (width r)
     ∧ clampedTo (height lo) (height hi) (to_uint32 (WINDOW_HEIGHT cfg)) (height r))
  ∧ (width (currentExtent capabilities) = UINT32_MAX →
     lo = {| width := 400; height := 300 |} →
     hi = {| width := 1920; height := 1080 |} →
     chooseSwapExtent (withWindowSize 800 600 cfg) capabilities
       = {| width := 800; height := 600 |}
     ∧ chooseSwapExtent (withWindowSize 100 100 cfg) capabilities
       = {| width := 400; height := 300 |}).
Proof.
  cbv zeta. unfold chooseSwapExtent.
  destruct (width (currentExtent capabilities) =? UINT32_MAX) eqn:E; simpl.
  - apply Z.eqb_eq in E. split; [done|]. split.
    + intros _ Hw Hh. split; apply max_min_clampedTo; done.
    + intros _ Hlo Hhi. rewrite Hlo, Hhi. split; reflexivity.
  - apply Z.eqb_neq in E. split; [done|]. split; intros; contradiction.
Qed.

Lemma to_uint32_small z : is_uint32 z → to_uint32 z = z.
Proof. unfold is_uint32, to_uint32, UINT32_MAX. intros. apply Z.mod_small. lia. Qed.

(** C7. The requested image count is minImageCount + 1 (a [uint32_t]
    sum), brought down to maxImageCount when maxImageCount is non-zero and
    smaller; a zero maxImageCount leaves it alone. minImageCount = 2 with
    maxImageCount = 0 gives 3, minImageCount = 3 with maxImageCount = 3
    gives 3. *)
Theorem createSwapChain_imageCount_min_plus_one
  (capabilities : VkSurfaceCapabilitiesKHR) :
  is_uint32 (minImageCount capabilities) →
  is_uint32 (maxImageCount capabilities) →
  let lo := minImageCount capabilities in
  let hi := maxImageCount capabilities in
  let requested := to_uint32 (lo + 1) in
  let imageCount := createSwapChain_imageCount capabilities in
  (lo < UINT32_MAX → requested = lo + 1)
  ∧ (hi = 0 → imageCount = requested)
  ∧ (hi ≠ 0 → hi < requested → imageCount = hi)
  ∧ (hi ≠ 0 → requested ≤ hi → imageCount = requested)
  ∧ (lo = 2 → hi = 0 → imageCount = 3)
  ∧ (lo = 3 → hi = 3 → imageCount = 3).
Proof.
  intros Hlo Hhi. cbv zeta. unfold createSwapChain_imageCount.
  unfold is_uint32, UINT32_MAX in *.
  split; [intros; apply to_uint32_small; unfold is_uint32, UINT32_MAX; lia|].
  split; [intros ->; reflexivity|].
  split.
  { intros Hnz Hlt. rewrite (proj2 (Z.ltb_lt _ _)) by lia.
    rewrite (proj2 (Z.ltb_lt _ _) Hlt). reflexivity. }
  split.
  { intros Hnz Hle. rewrite (proj2 (Z.ltb_ge _ _) Hle).
    by rewrite andb_false_r. }
  split; intros -> ->; reflexivity.
Qed.

Lemma createSwapChain_imageCount_min_plus_one_witness :
  createSwapChain_imageCount sampleCapabilities = 3.
Proof.
  refine (proj1 (proj2 (proj2 (proj2 (proj2
    (createSwapChain_imageCount_min_plus_one sampleCapabilities _ _)))))
    eq_refl eq_refl);
  unfold is_uint32, UINT32_MAX; simpl; lia.
Defined.

Lemma chooseSwapSurfaceFormat_nonempty (availableFormats : list VkSurfaceFormatKHR) :
  availableFormats ≠ [] → ∃ f, chooseSwapSurfaceFormat availableFormats = Ok f.
Proof.
  intros Hne. unfold chooseSwapSurfaceFormat.
  destruct (chooseSwapSurfaceFormat_scan availableFormats); [by eexists|].
  destruct availableFormats; [done | by eexists].
Qed.

Lemma querySwapChainSupport_surfaceFormats drv surface device :
  surfaceFormats (querySwapChainSupport drv surface device)
  = vkGetPhysicalDeviceSurfaceFormatsKHR drv device surface.
Proof.
  simpl. by destruct (vkGetPhysicalDeviceSurfaceFormatsKHR drv device surface).
Qed.

Lemma querySwapChainSupport_presentationModes drv surface device :
  presentationModes (querySwapChainSupport drv surface device)
  = vkGetPhysicalDeviceSurfacePresentModesKHR drv device surface.
Proof.
  simpl. by destruct (vkGetPhysicalDeviceSurfacePresentModesKHR drv device surface).
Qed.

Lemma createSwapChain_sharing_distinct g p :
  g ≠ p →
  createSwapChain_sharing {| graphicsFamily := Some g; presentationFamily := Some p |}
  = Ok (VK_SHARING_MODE_CONCURRENT, 2, Some [g; p]).
Proof.
  intros Hne. unfold createSwapChain_sharing. simpl.
  rewrite bool_decide_eq_false_2; [done | congruence].
Qed.

Lemma createSwapChain_sharing_same g :
  createSwapChain_sharing {| graphicsFamily := Some g; presentationFamily := Some g |}
  = Ok (VK_SHARING_MODE_EXCLUSIVE, 0, None).
Proof.
  unfold createSwapChain_sharing. simpl. by rewrite bool_decide_eq_true_2.
Qed.

Lemma createSwapChain_createInfo_Ok cfg drv surface physicalDevice g p :
  findQueueFamilies drv surface physicalDevice
    = {| graphicsFamily := Some g; presentationFamily := Some p |} →
  vkGetPhysicalDeviceSurfaceFormatsKHR drv physicalDevice surface ≠ [] →
  ∃ createInfo,
    createSwapChain_createInfo cfg drv surface physicalDevice = Ok createInfo
    ∧ createSwapChain_sharing
        {| graphicsFamily := Some g; presentationFamily := Some p |}
      = Ok (imageSharingMode createInfo, queueFamilyIndexCount createInfo,
            pQueueFamilyIndices createInfo).
Proof.
  intros Hq Hf. unfold createSwapChain_createInfo. rewrite Hq.
  destruct (chooseSwapSurfaceFormat_nonempty
              (surfaceFormats (querySwapChainSupport drv surface physicalDevice)))
    as [f ->].
  { by rewrite querySwapChainSupport_surfaceFormats. }
  destruct (decide (g = p)) as [->|Hne].
  - rewrite createSwapChain_sharing_same. eexists. split; reflexivity.
  - rewrite createSwapChain_sharing_distinct by done. eexists. split; reflexivity.
Qed.

(** C8. When the two recorded family indices differ, the create request
    asks for concurrent sharing with an index count of 2 and exactly the
    graphics and the presentation index; when they are the same it asks
    for exclusive sharing with a count of 0 and no index list. *)
Theorem createSwapChain_sharing_mode (cfg : FrameworkConfig) (drv : VkDriver)
  (surface physicalDevice : VkHandle) (g p : Z) :
  findQueueFamilies drv surface physicalDevice
    = {| graphicsFamily := Some g; presentationFamily := Some p |} →
  vkGetPhysicalDeviceSurfaceFormatsKHR drv physicalDevice surface ≠ [] →
  ∃ createInfo,
    createSwapChain_createInfo cfg drv surface physicalDevice = Ok createInfo
    ∧ (g ≠ p →
         imageSharingMode createInfo = VK_SHARING_MODE_CONCURRENT
         ∧ queueFamilyIndexCount createInfo = 2
         ∧ pQueueFamilyIndices createInfo = Some [g; p]
         ∧ sharedQueueFamilies createInfo = [g; p])
    ∧ (g = p →
         imageSharingMode createInfo = VK_SHARING_MODE_EXCLUSIVE
         ∧ queueFamilyIndexCount createInfo = 0
         ∧ pQueueFamilyIndices createInfo = None
         ∧ sharedQueueFamilies createInfo = []).
Proof.
  intros Hq Hf.
  destruct (createSwapChain_createInfo_Ok cfg drv surface physicalDevice g p Hq Hf)
    as (createInfo & Hinfo & Hshare).
  exists createInfo. split; [done|]. unfold sharedQueueFamilies. split.
  - intros Hne. rewrite createSwapChain_sharing_distinct in Hshare by done.
    injection Hshare as <- <- <-. done.
  - intros ->. rewrite createSwapChain_sharing_same in Hshare.
    injection Hshare as <- <- <-. done.
Qed.

Lemma createSwapChain_sharing_mode_witness :
  ∃ createInfo,
    createSwapChain_createInfo debugConfig twoGraphicsDriver 4 7 = Ok createInfo
    ∧ imageSharingMode createInfo = VK_SHARING_MODE_CONCURRENT
    ∧ queueFamilyIndexCount createInfo = 2
    ∧ sharedQueueFamilies createInfo = [1; 0].
Proof.
  destruct (createSwapChain_sharing_mode debugConfig twoGraphicsDriver 4 7 1 0)
    as (createInfo & Hrun & Hdistinct & _).
  - reflexivity.
  - discriminate.
  - exists createInfo. destruct Hdistinct as (? & ? & ? & ?); [discriminate|]. done.
Defined.

(** ** Instance creation *)

Lemma layerFound_true layerName availableLayers :
  layerFound layerName availableLayers = true ↔ layerName ∈ availableLayers.
Proof.
  induction availableLayers as [|a rest IH]; simpl.
  - split; [done | intros H; by apply elem_of_nil in H].
  - rewrite elem_of_cons. destruct (String.eqb layerName a) eqn:E.
    + apply String.eqb_eq in E. tauto.
    + apply String.eqb_neq in E. rewrite IH. tauto.
Qed.

Lemma isValidationLayerSupported_scan_false layers availableLayers :
  isValidationLayerSupported_scan layers availableLayers = false
  ↔ ∃ layerName, layerName ∈ layers ∧ layerName ∉ availableLayers.
Proof.
  induction layers as [|l rest IH]; simpl.
  - split; [done | intros (x & Hx & _); by apply elem_of_nil in Hx].
  - destruct (layerFound l availableLayers) eqn:E; simpl.
    + apply layerFound_true in E. rewrite IH. split.
      * intros (x & Hx & Hn). exists x. split; [by right | done].
      * intros (x & Hx & Hn). exists x. split; [|done].
        apply elem_of_cons in Hx as [->|Hx]; [contradiction | done].
    + split; [intros _ | done]. exists l. split; [left|].
      intros Hin. apply layerFound_true in Hin. congruence.
Qed.

(** C9. createInstance throws UnsupportedLayer exactly when validation
    layers are enabled and one of the requested layer names is not, by
    string equality, among the layers the driver enumerates. With
    validation layers disabled the enumerated layers play no part in the
    outcome. *)
Theorem createInstance_UnsupportedLayer_iff
  (cfg : FrameworkConfig) (drv : VkDriver) (s : Framework) :
  (fst (createInstance cfg drv s) = Err UnsupportedLayer
   ↔ enableValidationLayers cfg = true
     ∧ ∃ layerName, layerName ∈ validationLayers cfg
                    ∧ layerName ∉ vkEnumerateInstanceLayerProperties drv)
  ∧ (enableValidationLayers cfg = false →
     ∀ availableLayers,
       createInstance cfg (withInstanceLayers availableLayers drv) s
       = createInstance cfg drv s).
Proof.
  split.
  - rewrite <- isValidationLayerSupported_scan_false.
    unfold createInstance. fold (isValidationLayerSupported cfg drv).
    destruct (enableValidationLayers cfg); simpl.
    + destruct (isValidationLayerSupported cfg drv) eqn:E; simpl.
      * destruct (vkCreateInstance drv _) as [res h].
        destruct (succeeded res); simpl; split; intros H;
          solve [discriminate | destruct H; discriminate].
      * done.
    + destruct (vkCreateInstance drv _) as [res h].
      destruct (succeeded res); simpl; split; intros H;
        solve [discriminate | destruct H; discriminate].
  - intros Hoff layers. unfold createInstance. rewrite Hoff. simpl.
    unfold getRequiredExtensions. rewrite Hoff. reflexivity.
Qed.

(** ** Device selection *)

Lemma erase_all (required : gset string) (available : list string) :
  foldl (λ required extension, required ∖ {[extension]}) required available
  = required ∖ list_to_set available.
Proof.
  revert required. induction available as [|a rest IH]; intros required; simpl.
  - by rewrite difference_empty_L.
  - by rewrite IH, difference_difference_l_L.
Qed.

Section Selection.
Variable cfg : FrameworkConfig.
Variable drv : VkDriver.
Variable surface : VkHandle.

Lemma IsComplete_true indices :
  IsComplete indices = true
  ↔ is_Some (graphicsFamily indices) ∧ is_Some (presentationFamily indices).
Proof.
  unfold IsComplete. by rewrite andb_true_iff, !bool_decide_eq_true.
Qed.

Lemma checkDeviceExtensionSupport_true d :
  checkDeviceExtensionSupport cfg drv d = true ↔ ExtensionsSupported cfg drv d.
Proof.
  unfold checkDeviceExtensionSupport, ExtensionsSupported.
  rewrite bool_decide_eq_true, erase_all. split.
  - intros H name Hin.
    destruct (decide (name ∈ vkEnumerateDeviceExtensionProperties drv d)); [done|].
    assert (name ∈ (list_to_set (deviceExtensions cfg) : gset string)
                     ∖ list_to_set (vkEnumerateDeviceExtensionProperties drv d))
      as Hbad by set_solver.
    rewrite H in Hbad. set_solver.
  - intros H. apply set_eq. intros name. split; [|set_solver].
    rewrite elem_of_difference, !elem_of_list_to_set. intros [Hin Hn].
    destruct Hn. by apply H.
Qed.

Lemma vector_empty_false {A} (v : list A) : negb (vector_empty v) = true ↔ v ≠ [].
Proof. destruct v; simpl; split; done. Qed.

Lemma isDeviceSuitable_true d :
  isDeviceSuitable cfg drv surface d = true ↔ Suitable cfg drv surface d.
Proof.
  unfold isDeviceSuitable, Suitable, QueueComplete, SwapchainAdequate.
  rewrite <- checkDeviceExtensionSupport_true, <- IsComplete_true.
  destruct (checkDeviceExtensionSupport cfg drv d).
  - rewrite !andb_true_iff, !vector_empty_false.
    rewrite querySwapChainSupport_surfaceFormats,
      querySwapChainSupport_presentationModes. tauto.
  - rewrite andb_false_r. simpl. split; [done | intros (_ & ? & _); done].
Qed.

End Selection.

Lemma selectPhysicalDevice_loop_first cfg drv devices before d after s :
  devices = before ++ d :: after →
  (∀ x, x ∈ before → ¬ Suitable cfg drv (surface s) x) →
  Suitable cfg drv (surface s) d →
  selectPhysicalDevice_loop cfg drv devices s = set_physicalDevice d s.
Proof.
  intros -> Hbefore Hd. induction before as [|x before IH]; simpl.
  - apply isDeviceSuitable_true in Hd. by rewrite Hd.
  - destruct (isDeviceSuitable cfg drv (surface s) x) eqn:E.
    + apply isDeviceSuitable_true in E. destruct (Hbefore x); [left | done].
    + apply IH. intros y Hy. apply Hbefore. by right.
Qed.

Lemma selectPhysicalDevice_loop_none cfg drv devices s :
  (∀ x, x ∈ devices → ¬ Suitable cfg drv (surface s) x) →
  selectPhysicalDevice_loop cfg drv devices s = s.
Proof.
  intros Hnone. induction devices as [|x rest IH]; simpl; [done|].
  destruct (isDeviceSuitable cfg drv (surface s) x) eqn:E.
  - apply isDeviceSuitable_true in E. destruct (Hnone x); [left | done].
  - apply IH. intros y Hy. apply Hnone. by right.
Qed.

Lemma selectPhysicalDevice_nonempty cfg drv s :
  vkEnumeratePhysicalDevices drv (instance s) ≠ [] →
  selectPhysicalDevice cfg drv s
  = let s' := selectPhysicalDevice_loop cfg drv
                (vkEnumeratePhysicalDevices drv (instance s)) s in
    if physicalDevice s' =? VK_NULL_HANDLE
    then (Err NoSuitableAccelerator, s') else (Ok tt, s').
Proof.
  intros Hne. unfold selectPhysicalDevice, bind, get, modify, throw, ret.
  destruct (vkEnumeratePhysicalDevices drv (instance s)) as [|d rest]; [done|].
  change (Z.of_nat (length (d :: rest)) =? 0) with false. cbv beta iota zeta.
  by destruct (physicalDevice _ =? VK_NULL_HANDLE).
Qed.

(** C1. Run where [physicalDevice] is still VK_NULL_HANDLE,
    selectPhysicalDevice throws NoAcceleratorFound when no device is
    enumerated; it stores the first enumerated device that is
    queue-complete, supports the required extensions and has at least one
    surface format and one presentation mode; and it throws
    NoSuitableAccelerator when no enumerated device passes the three
    checks. Enumerated handles are not VK_NULL_HANDLE. *)
Theorem selectPhysicalDevice_first_suitable
  (cfg : FrameworkConfig) (drv : VkDriver) (s : Framework) :
  physicalDevice s = VK_NULL_HANDLE →
  let devices := vkEnumeratePhysicalDevices drv (instance s) in
  (devices = [] → selectPhysicalDevice cfg drv s = (Err NoAcceleratorFound, s))
  ∧ (∀ before d after,
       devices = before ++ d :: after →
       d ≠ VK_NULL_HANDLE →
       (∀ x, x ∈ before → ¬ Suitable cfg drv (surface s) x) →
       Suitable cfg drv (surface s) d →
       selectPhysicalDevice cfg drv s = (Ok tt, set_physicalDevice d s))
  ∧ (devices ≠ [] →
     (∀ x, x ∈ devices → ¬ Suitable cfg drv (surface s) x) →
     selectPhysicalDevice cfg drv s = (Err NoSuitableAccelerator, s)).
Proof.
  intros Hnull. cbv zeta. split; [|split].
  - intros Hdevs. unfold selectPhysicalDevice, bind, get. by rewrite Hdevs.
  - intros before d after Hdevs Hd Hbefore Hsuit.
    rewrite selectPhysicalDevice_nonempty by (rewrite Hdevs; by destruct before).
    rewrite (selectPhysicalDevice_loop_first cfg drv _ before d after s) by done.
    simpl. apply Z.eqb_neq in Hd. by rewrite Hd.
  - intros Hne Hnone. rewrite selectPhysicalDevice_nonempty by done.
    rewrite selectPhysicalDevice_loop_none by done.
    cbv zeta. by rewrite Hnull.
Qed.

Lemma selectPhysicalDevice_first_suitable_witness :
  selectPhysicalDevice debugConfig threeGpuDriver newFramework
  = (Ok tt, set_physicalDevice 7 newFramework)
  ∧ selectPhysicalDevice debugConfig computeOnlyDriver newFramework
    = (Err NoSuitableAccelerator, newFramework)
  ∧ selectPhysicalDevice debugConfig noGpuDriver newFramework
    = (Err NoAcceleratorFound, newFramework).
Proof.
  split; [|split].
  - refine (proj1 (proj2 (selectPhysicalDevice_first_suitable
                            debugConfig threeGpuDriver newFramework eq_refl))
              [5] 7 [9] eq_refl _ _ _).
    + discriminate.
    + intros x Hx. apply list_elem_of_singleton in Hx as ->.
      intros Hsuit. apply isDeviceSuitable_true in Hsuit. discriminate.
    + apply isDeviceSuitable_true. reflexivity.
  - refine (proj2 (proj2 (selectPhysicalDevice_first_suitable
                            debugConfig computeOnlyDriver newFramework eq_refl))
              _ _).
    + discriminate.
    + intros x Hx Hsuit. apply isDeviceSuitable_true in Hsuit.
      repeat (apply elem_of_cons in Hx as [->|Hx]; [discriminate|]).
      by apply elem_of_nil in Hx.
  - exact (proj1 (selectPhysicalDevice_first_suitable
                    debugConfig noGpuDriver newFramework eq_refl) eq_refl).
Defined.

(** ** Queue family scan *)

Section QueueFamilies.
Variable drv : VkDriver.
Variable surface device : VkHandle.

Local Abbreviation loop := (findQueueFamilies_loop drv surface device).

Lemma graphicsAt_head q l : graphicsAt (q :: l) 0 ↔ hasGraphics q = true.
Proof.
  unfold graphicsAt. simpl. split.
  - intros (q' & [= <-] & H). done.
  - intros H. by exists q.
Qed.

Lemma graphicsAt_tail q l k : graphicsAt (q :: l) (S k) ↔ graphicsAt l k.
Proof. reflexivity. Qed.

Lemma presentAt_head q l i :
  presentAt drv surface device (q :: l) i 0
  ↔ vkGetPhysicalDeviceSurfaceSupportKHR drv device (to_uint32 i) surface = true.
Proof.
  unfold presentAt. simpl. rewrite Z.add_0_r. split; [tauto|].
  intros H. split; [lia | done].
Qed.

Lemma presentAt_tail q l i k :
  presentAt drv surface device (q :: l) i (S k)
  ↔ presentAt drv surface device l (i + 1) k.
Proof.
  unfold presentAt. simpl.
  replace (i + Z.of_nat (S k)) with (i + 1 + Z.of_nat k) by lia.
  split; intros [? ?]; split; (lia || done).
Qed.

Lemma loop_complete l i indices :
  IsComplete indices = true →
  presentationFamily (loop l i indices) = presentationFamily indices
  ∧ is_Some (graphicsFamily (loop l i indices)).
Proof.
  intros Hc. pose proof Hc as Hc'. apply IsComplete_true in Hc' as [Hg Hp].
  destruct l as [|q l]; simpl; [done|].
  destruct (hasGraphics q).
  - assert (IsComplete {| graphicsFamily := Some (to_uint32 i);
                          presentationFamily := presentationFamily indices |}
            = true) as ->; [|done].
    apply IsComplete_true. simpl. split; [by eexists | done].
  - rewrite Hc. done.
Qed.

Lemma IsComplete_no_graphics indices :
  graphicsFamily indices = None → IsComplete indices = false.
Proof.
  intros H. destruct (IsComplete indices) eqn:E; [|done].
  apply IsComplete_true in E as [[g Hg] _]. congruence.
Qed.

Lemma IsComplete_no_presentation indices :
  presentationFamily indices = None → IsComplete indices = false.
Proof.
  intros H. destruct (IsComplete indices) eqn:E; [|done].
  apply IsComplete_true in E as [_ [p Hp]]. congruence.
Qed.

(** Once a field is set it stays set. *)
Lemma loop_keeps l : ∀ i indices,
  (is_Some (graphicsFamily indices) → is_Some (graphicsFamily (loop l i indices)))
  ∧ (is_Some (presentationFamily indices) →
     is_Some (presentationFamily (loop l i indices))).
Proof.
  induction l as [|q l IH]; intros i indices; simpl; [done|].
  destruct (hasGraphics q); simpl;
    (destruct (IsComplete _) eqn:Hc;
     [ apply IsComplete_true in Hc; simpl in Hc; tauto |]);
    destruct (vkGetPhysicalDeviceSurfaceSupportKHR drv device (to_uint32 i) surface);
    split; intros H; apply IH; simpl; (done || by eexists).
Qed.

(** A recorded index was either there before or belongs to a family with
    the capability. *)
Lemma loop_sound l : ∀ i indices,
  (∀ g, graphicsFamily (loop l i indices) = Some g →
        graphicsFamily indices = Some g
        ∨ ∃ k, graphicsAt l k ∧ g = to_uint32 (i + Z.of_nat k))
  ∧ (∀ p, presentationFamily (loop l i indices) = Some p →
        presentationFamily indices = Some p
        ∨ ∃ k, presentAt drv surface device l i k
               ∧ p = to_uint32 (i + Z.of_nat k)).
Proof.
  induction l as [|q l IH]; intros i indices; [simpl; by split; left|].
  assert (∀ indices', 
    (∀ g, graphicsFamily indices' = Some g →
       graphicsFamily indices = Some g
       ∨ ∃ k, graphicsAt (q :: l) k ∧ g = to_uint32 (i + Z.of_nat k)) →
    (∀ p, presentationFamily indices' = Some p →
       presentationFamily indices = Some p
       ∨ ∃ k, presentAt drv surface device (q :: l) i k
              ∧ p = to_uint32 (i + Z.of_nat k)) →
    (∀ g, graphicsFamily (loop l (i + 1) indices') = Some g →
        graphicsFamily indices = Some g
        ∨ ∃ k, graphicsAt (q :: l) k ∧ g = to_uint32 (i + Z.of_nat k))
    ∧ (∀ p, presentationFamily (loop l (i + 1) indices') = Some p →
        presentationFamily indices = Some p
        ∨ ∃ k, presentAt drv surface device (q :: l) i k
               ∧ p = to_uint32 (i + Z.of_nat k)))
    as Hstep.
  { intros indices' Hg Hp. destruct (IH (i + 1) indices') as [IHg IHp]. split.
    - intros g Hr. destruct (IHg g Hr) as [Hold|(k & Hk & ->)]; [by apply Hg|].
      right. exists (S k). split; [by apply graphicsAt_tail|]. f_equal. lia.
    - intros p Hr. destruct (IHp p Hr) as [Hold|(k & Hk & ->)]; [by apply Hp|].
      right. exists (S k). split; [by apply presentAt_tail|]. f_equal. lia. }
  simpl. destruct (hasGraphics q) eqn:Hq; simpl.
  - assert (∀ g, Some (to_uint32 i) = Some g →
       graphicsFamily indices = Some g
       ∨ ∃ k, graphicsAt (q :: l) k ∧ g = to_uint32 (i + Z.of_nat k)) as Hnew.
    { intros g [= <-]. right. exists 0%nat. split; [by apply graphicsAt_head|].
      f_equal. simpl. lia. }
    destruct (IsComplete _); [simpl; split; [done | by left]|].
    destruct (vkGetPhysicalDeviceSurfaceSupportKHR drv device (to_uint32 i) surface)
      eqn:Hs; apply Hstep; simpl; try done; try (by left).
    intros p [= <-]. right. exists 0%nat. split; [by apply presentAt_head|].
    f_equal. simpl. lia.
  - destruct (IsComplete _); [split; by left|].
    destruct (vkGetPhysicalDeviceSurfaceSupportKHR drv device (to_uint32 i) surface)
      eqn:Hs; apply Hstep; simpl; try done; try (by left).
    intros p [= <-]. right. exists 0%nat. split; [by apply presentAt_head|].
    f_equal. simpl. lia.
Qed.

(** A capability that some remaining family has ends up recorded. *)
Lemma loop_finds l : ∀ i indices,
  ((∃ k, graphicsAt l k) → is_Some (graphicsFamily (loop l i indices)))
  ∧ ((∃ k, presentAt drv surface device l i k) →
     is_Some (presentationFamily (loop l i indices))).
Proof.
  induction l as [|q l IH]; intros i indices.
  - split; intros [k H].
    + destruct H as (q & Hq & _). by rewrite lookup_nil in Hq.
    + destruct H as [Hk _]. simpl in Hk. lia.
  - simpl. destruct (hasGraphics q) eqn:Hq; simpl.
    + destruct (IsComplete _) eqn:Hc.
      { apply IsComplete_true in Hc. simpl in Hc. tauto. }
      destruct (vkGetPhysicalDeviceSurfaceSupportKHR drv device (to_uint32 i) surface)
        eqn:Hs; split; intros [k Hk].
      * apply loop_keeps. simpl. by eexists.
      * apply loop_keeps. simpl. by eexists.
      * apply loop_keeps. simpl. by eexists.
      * destruct k as [|k]; [apply presentAt_head in Hk; congruence|].
        apply presentAt_tail in Hk. apply IH. by exists k.
    + destruct (IsComplete _) eqn:Hc.
      { apply IsComplete_true in Hc. tauto. }
      destruct (vkGetPhysicalDeviceSurfaceSupportKHR drv device (to_uint32 i) surface)
        eqn:Hs; split; intros [k Hk].
      * destruct k as [|k]; [apply graphicsAt_head in Hk; congruence|].
        apply graphicsAt_tail in Hk. apply IH. by exists k.
      * apply loop_keeps. simpl. by eexists.
      * destruct k as [|k]; [apply graphicsAt_head in Hk; congruence|].
        apply graphicsAt_tail in Hk. apply IH. by exists k.
      * destruct k as [|k]; [apply presentAt_head in Hk; congruence|].
        apply presentAt_tail in Hk. apply IH. by exists k.
Qed.

(** Graphics not yet recorded, and presentation recorded before the first
    remaining graphics family is visited: that family is the one recorded. *)
Lemma loop_graphics_first l : ∀ i indices k,
  graphicsFamily indices = None →
  graphicsAt l k →
  (∀ j, (j < k)%nat → ¬ graphicsAt l j) →
  (is_Some (presentationFamily indices)
   ∨ ∃ j, (j < k)%nat ∧ presentAt drv surface device l i j) →
  graphicsFamily (loop l i indices) = Some (to_uint32 (i + Z.of_nat k)).
Proof.
  induction l as [|q l IH]; intros i indices k Hnone Hk Hfirst Hp.
  - destruct Hk as (q & Hq & _). by rewrite lookup_nil in Hq.
  - simpl. destruct k as [|k].
    + apply graphicsAt_head in Hk. rewrite Hk.
      destruct Hp as [Hp|(j & Hj & _)]; [|lia].
      assert (IsComplete {| graphicsFamily := Some (to_uint32 i);
                            presentationFamily := presentationFamily indices |}
              = true) as ->.
      { apply IsComplete_true. simpl. split; [by eexists | done]. }
      simpl. f_equal. f_equal. lia.
    + destruct (hasGraphics q) eqn:Hq.
      { destruct (Hfirst 0%nat); [lia | by apply graphicsAt_head]. }
      rewrite (IsComplete_no_graphics indices Hnone).
      replace (i + Z.of_nat (S k)) with (i + 1 + Z.of_nat k) by lia.
      apply graphicsAt_tail in Hk.
      assert (∀ j, (j < k)%nat → ¬ graphicsAt l j) as Hfirst'.
      { intros j Hj Hgj. apply (Hfirst (S j)); [lia | by apply graphicsAt_tail]. }
      destruct (vkGetPhysicalDeviceSurfaceSupportKHR drv device (to_uint32 i) surface)
        eqn:Hs; apply IH; simpl; try done.
      * left. by eexists.
      * destruct Hp as [Hp|(j & Hj & Hpj)]; [by left|].
        destruct j as [|j]; [apply presentAt_head in Hpj; congruence|].
        right. exists j. split; [lia | by apply presentAt_tail in Hpj].
Qed.

(** Presentation not yet recorded, and graphics recorded no later than at
    the first remaining presentation family: that family is the one recorded. *)
Lemma loop_presentation_first l : ∀ i indices k,
  presentationFamily indices = None →
  presentAt drv surface device l i k →
  (∀ j, (j < k)%nat → ¬ presentAt drv surface device l i j) →
  (is_Some (graphicsFamily indices) ∨ ∃ j, (j ≤ k)%nat ∧ graphicsAt l j) →
  presentationFamily (loop l i indices) = Some (to_uint32 (i + Z.of_nat k)).
Proof.
  induction l as [|q l IH]; intros i indices k Hnone Hk Hfirst Hg.
  - destruct Hk as [Hk _]. simpl in Hk. lia.
  - simpl.
    set (indices' := if hasGraphics q
                     then {| graphicsFamily := Some (to_uint32 i);
                             presentationFamily := presentationFamily indices |}
                     else indices).
    assert (presentationFamily indices' = None) as Hnone'.
    { unfold indices'. by destruct (hasGraphics q). }
    rewrite (IsComplete_no_presentation indices' Hnone').
    destruct k as [|k].
    + apply presentAt_head in Hk. rewrite Hk.
      assert (is_Some (graphicsFamily indices')) as Hg'.
      { unfold indices'. destruct (hasGraphics q) eqn:Hq; [by eexists|].
        destruct Hg as [Hg|(j & Hj & Hgj)]; [done|].
        assert (j = 0%nat) as -> by lia. apply graphicsAt_head in Hgj. congruence. }
      edestruct loop_complete as [-> _].
      { apply IsComplete_true. simpl. split; [done | by eexists]. }
      simpl. f_equal. f_equal. lia.
    + destruct (vkGetPhysicalDeviceSurfaceSupportKHR drv device (to_uint32 i) surface)
        eqn:Hs.
      { destruct (Hfirst 0%nat); [lia | by apply presentAt_head]. }
      replace (i + Z.of_nat (S k)) with (i + 1 + Z.of_nat k) by lia.
      apply presentAt_tail in Hk. apply IH; try done.
      * intros j Hj Hpj. apply (Hfirst (S j)); [lia | by apply presentAt_tail].
      * unfold indices'. destruct (hasGraphics q) eqn:Hq; [left; by eexists|].
        destruct Hg as [Hg|(j & Hj & Hgj)]; [by left|].
        destruct j as [|j]; [apply graphicsAt_head in Hgj; congruence|].
        right. exists j. split; [lia | by apply graphicsAt_tail in Hgj].
Qed.

End QueueFamilies.

(** Which index a field holds when the scan stops: every family with the
    capability overwrites it, so it is the last such family visited. *)
Section QueueFamiliesOverwrite.
Variable drv : VkDriver.
Variable surface device : VkHandle.

Local Abbreviation loop := (findQueueFamilies_loop drv surface device).
Local Abbreviation supports i :=
  (vkGetPhysicalDeviceSurfaceSupportKHR drv device (to_uint32 i) surface).

(** Nothing left with either capability: nothing changes. *)
Lemma loop_idle l : ∀ i indices,
  IsComplete indices = false →
  (∀ j, ¬ graphicsAt l j) →
  (∀ j, ¬ presentAt drv surface device l i j) →
  loop l i indices = indices.
Proof.
  induction l as [|q l IH]; intros i indices Hc Hg Hp; [done|]. simpl.
  destruct (hasGraphics q) eqn:Hq.
  { destruct (Hg 0%nat). by apply graphicsAt_head. }
  rewrite Hc.
  destruct (supports i) eqn:Hs.
  { destruct (Hp 0%nat). by apply presentAt_head. }
  apply IH; [done | |].
  - intros j Hj. by apply (Hg (S j)).
  - intros j Hj. apply (Hp (S j)). by apply presentAt_tail.
Qed.

(** Graphics still missing and first found at [k]: presentation keeps the
    value it has when no family before [k] presents ... *)
Lemma loop_graphics_stop_keeps l : ∀ i indices k,
  graphicsFamily indices = None →
  is_Some (presentationFamily indices) →
  graphicsAt l k →
  (∀ j, (j < k)%nat → ¬ graphicsAt l j) →
  (∀ j, (j < k)%nat → ¬ presentAt drv surface device l i j) →
  presentationFamily (loop l i indices) = presentationFamily indices.
Proof.
  induction l as [|q l IH]; intros i indices k Hnone Hp Hk Hgf Hpf; [done|].
  simpl. destruct k as [|k].
  - apply graphicsAt_head in Hk. rewrite Hk.
    assert (IsComplete {| graphicsFamily := Some (to_uint32 i);
                          presentationFamily := presentationFamily indices |}
            = true) as ->; [|done].
    apply IsComplete_true. simpl. split; [by eexists | done].
  - destruct (hasGraphics q) eqn:Hq.
    { destruct (Hgf 0%nat); [lia | by apply graphicsAt_head]. }
    rewrite (IsComplete_no_graphics indices Hnone).
    destruct (supports i) eqn:Hs.
    { destruct (Hpf 0%nat); [lia | by apply presentAt_head]. }
    apply (IH (i + 1) indices k); try done.
    + intros j Hj Hgj. apply (Hgf (S j)); [lia | done].
    + intros j Hj Hpj. apply (Hpf (S j)); [lia | by apply presentAt_tail].
Qed.

(** ... and otherwise holds the last family before [k] that presents. *)
Lemma loop_graphics_stop_last l : ∀ i indices k j,
  graphicsFamily indices = None →
  graphicsAt l k →
  (∀ j', (j' < k)%nat → ¬ graphicsAt l j') →
  (j < k)%nat →
  presentAt drv surface device l i j →
  (∀ j', (j < j' < k)%nat → ¬ presentAt drv surface device l i j') →
  presentationFamily (loop l i indices) = Some (to_uint32 (i + Z.of_nat j)).
Proof.
  induction l as [|q l IH]; intros i indices k j Hnone Hk Hgf Hjk Hj Hlast.
  - destruct Hk as (q & Hq & _). by rewrite lookup_nil in Hq.
  - simpl. destruct k as [|k]; [lia|].
    destruct (hasGraphics q) eqn:Hq.
    { destruct (Hgf 0%nat); [lia | by apply graphicsAt_head]. }
    rewrite (IsComplete_no_graphics indices Hnone).
    apply graphicsAt_tail in Hk.
    assert (∀ j', (j' < k)%nat → ¬ graphicsAt l j') as Hgf'.
    { intros j' Hj' Hg. apply (Hgf (S j')); [lia | done]. }
    destruct j as [|j].
    + apply presentAt_head in Hj. rewrite Hj.
      rewrite (loop_graphics_stop_keeps l (i + 1) _ k);
        [ simpl; f_equal; f_equal; lia
        | done
        | simpl; by eexists
        | done
        | done
        | intros j' Hj' Hp; apply (Hlast (S j')); [lia | by apply presentAt_tail] ].
    + replace (i + Z.of_nat (S j)) with (i + 1 + Z.of_nat j) by lia.
      apply presentAt_tail in Hj.
      assert (∀ j', (j < j' < k)%nat → ¬ presentAt drv surface device l (i + 1) j')
        as Hlast'.
      { intros j' Hj' Hp. apply (Hlast (S j')); [lia | by apply presentAt_tail]. }
      destruct (supports i); apply (IH (i + 1) _ k j); (done || lia).
Qed.

(** Presentation still missing and first found at [k]: when the family
    after [k] has graphics, that family is recorded for graphics. *)
Lemma loop_presentation_stop_next l : ∀ i indices k,
  presentationFamily indices = None →
  presentAt drv surface device l i k →
  (∀ j, (j < k)%nat → ¬ presentAt drv surface device l i j) →
  graphicsAt l (S k) →
  graphicsFamily (loop l i indices) = Some (to_uint32 (i + Z.of_nat (S k))).
Proof.
  induction l as [|q l IH]; intros i indices k Hnone Hk Hpf Hnext.
  - destruct Hk as [Hk _]. simpl in Hk. lia.
  - simpl.
    set (indices' := if hasGraphics q
                     then {| graphicsFamily := Some (to_uint32 i);
                             presentationFamily := presentationFamily indices |}
                     else indices).
    assert (presentationFamily indices' = None) as Hnone'.
    { unfold indices'. by destruct (hasGraphics q). }
    rewrite (IsComplete_no_presentation indices' Hnone').
    apply graphicsAt_tail in Hnext. destruct k as [|k].
    + apply presentAt_head in Hk. rewrite Hk.
      destruct l as [|q' l]; [destruct Hnext as (? & Hq & _); done|].
      apply graphicsAt_head in Hnext. simpl. rewrite Hnext.
      assert (IsComplete {| graphicsFamily := Some (to_uint32 (i + 1));
                            presentationFamily := Some (to_uint32 i) |} = true)
        as ->; [by apply IsComplete_true; split; eexists|].
      simpl. f_equal.
    + destruct (supports i) eqn:Hs.
      { destruct (Hpf 0%nat); [lia | by apply presentAt_head]. }
      replace (i + Z.of_nat (S (S k))) with (i + 1 + Z.of_nat (S k)) by lia.
      apply presentAt_tail in Hk. apply IH; try done.
      intros j Hj Hp. apply (Hpf (S j)); [lia | by apply presentAt_tail].
Qed.

(** Otherwise graphics keeps the value it has when no family up to the
    one after [k] has graphics ... *)
Lemma loop_presentation_stop_keeps l : ∀ i indices k,
  presentationFamily indices = None →
  is_Some (graphicsFamily indices) →
  presentAt drv surface device l i k →
  (∀ j, (j < k)%nat → ¬ presentAt drv surface device l i j) →
  (∀ j, (j ≤ S k)%nat → ¬ graphicsAt l j) →
  graphicsFamily (loop l i indices) = graphicsFamily indices.
Proof.
  induction l as [|q l IH]; intros i indices k Hnone Hg Hk Hpf Hgn; [done|].
  simpl. destruct (hasGraphics q) eqn:Hq.
  { destruct (Hgn 0%nat); [lia | by apply graphicsAt_head]. }
  rewrite (IsComplete_no_presentation indices Hnone).
  destruct k as [|k].
  - apply presentAt_head in Hk. rewrite Hk.
    edestruct (loop_complete drv surface device l (i + 1)
                 {| graphicsFamily := graphicsFamily indices;
                    presentationFamily := Some (to_uint32 i) |}) as [_ _].
    { apply IsComplete_true. simpl. split; [done | by eexists]. }
    destruct l as [|q' l]; [done|]. simpl.
    destruct (hasGraphics q') eqn:Hq'.
    { destruct (Hgn 1%nat); [lia|]. apply graphicsAt_tail. by apply graphicsAt_head. }
    assert (IsComplete {| graphicsFamily := graphicsFamily indices;
                          presentationFamily := Some (to_uint32 i) |} = true)
      as ->; [|done].
    apply IsComplete_true. simpl. split; [done | by eexists].
  - destruct (supports i) eqn:Hs.
    { destruct (Hpf 0%nat); [lia | by apply presentAt_head]. }
    apply presentAt_tail in Hk. apply (IH (i + 1) indices k); try done.
    + intros j Hj Hp. apply (Hpf (S j)); [lia | by apply presentAt_tail].
    + intros j Hj Hgj. apply (Hgn (S j)); [lia | done].
Qed.

(** ... and otherwise holds the last family up to [k] that has graphics. *)
Lemma loop_presentation_stop_last l : ∀ i indices k j,
  presentationFamily indices = None →
  presentAt drv surface device l i k →
  (∀ j', (j' < k)%nat → ¬ presentAt drv surface device l i j') →
  (j ≤ k)%nat →
  graphicsAt l j →
  (∀ j', (j < j' ≤ S k)%nat → ¬ graphicsAt l j') →
  graphicsFamily (loop l i indices) = Some (to_uint32 (i + Z.of_nat j)).
Proof.
  induction l as [|q l IH]; intros i indices k j Hnone Hk Hpf Hjk Hj Hlast.
  - destruct Hk as [Hk _]. simpl in Hk. lia.
  - simpl.
    set (indices' := if hasGraphics q
                     then {| graphicsFamily := Some (to_uint32 i);
                             presentationFamily := presentationFamily indices |}
                     else indices).
    assert (presentationFamily indices' = None) as Hnone'.
    { unfold indices'. by destruct (hasGraphics q). }
    rewrite (IsComplete_no_presentation indices' Hnone').
    destruct j as [|j].
    + apply graphicsAt_head in Hj.
      assert (indices' = {| graphicsFamily := Some (to_uint32 i);
                            presentationFamily := presentationFamily indices |})
        as Hi' by (unfold indices'; by rewrite Hj).
      destruct k as [|k].
      * apply presentAt_head in Hk. rewrite Hk. rewrite Hi'. simpl.
        rewrite Z.add_0_r.
        destruct l as [|q' l]; [done|]. simpl.
        destruct (hasGraphics q') eqn:Hq'.
        { destruct (Hlast 1%nat); [lia|].
          apply graphicsAt_tail. by apply graphicsAt_head. }
        assert (IsComplete {| graphicsFamily := Some (to_uint32 i);
                              presentationFamily := Some (to_uint32 i) |} = true)
          as ->; [by apply IsComplete_true; split; eexists | done].
      * destruct (supports i) eqn:Hs.
        { destruct (Hpf 0%nat); [lia | by apply presentAt_head]. }
        apply presentAt_tail in Hk.
        rewrite (loop_presentation_stop_keeps l (i + 1) indices' k);
          [ rewrite Hi'; simpl; f_equal; f_equal; lia
          | done
          | rewrite Hi'; simpl; by eexists
          | done
          | intros j Hj' Hp; apply (Hpf (S j)); [lia | by apply presentAt_tail]
          | intros j Hj' Hg; apply (Hlast (S j)); [lia | done] ].
    + destruct k as [|k]; [lia|].
      destruct (supports i) eqn:Hs.
      { destruct (Hpf 0%nat); [lia | by apply presentAt_head]. }
      replace (i + Z.of_nat (S j)) with (i + 1 + Z.of_nat j) by lia.
      apply presentAt_tail in Hk. apply (IH (i + 1) indices' k j); try done.
      * intros j' Hj' Hp. apply (Hpf (S j')); [lia | by apply presentAt_tail].
      * lia.
      * intros j' Hj' Hg. apply (Hlast (S j')); [lia | done].
Qed.

(** No family presents: graphics ends as the last family with graphics. *)
Lemma loop_graphics_only_last l : ∀ i indices j,
  presentationFamily indices = None →
  (∀ k, ¬ presentAt drv surface device l i k) →
  graphicsAt l j →
  (∀ j', (j < j')%nat → ¬ graphicsAt l j') →
  graphicsFamily (loop l i indices) = Some (to_uint32 (i + Z.of_nat j)).
Proof.
  induction l as [|q l IH]; intros i indices j Hnone Hp Hj Hlast.
  - destruct Hj as (q & Hq & _). by rewrite lookup_nil in Hq.
  - simpl.
    set (indices' := if hasGraphics q
                     then {| graphicsFamily := Some (to_uint32 i);
                             presentationFamily := presentationFamily indices |}
                     else indices).
    assert (presentationFamily indices' = None) as Hnone'.
    { unfold indices'. by destruct (hasGraphics q). }
    rewrite (IsComplete_no_presentation indices' Hnone').
    destruct (supports i) eqn:Hs.
    { destruct (Hp 0%nat). by apply presentAt_head. }
    assert (∀ k, ¬ presentAt drv surface device l (i + 1) k) as Hp'.
    { intros k Hk. apply (Hp (S k)). by apply presentAt_tail. }
    destruct j as [|j].
    + apply graphicsAt_head in Hj.
      rewrite loop_idle;
        [ unfold indices'; rewrite Hj; simpl; f_equal; f_equal; lia
        | by apply IsComplete_no_presentation
        | intros k Hk; apply (Hlast (S k)); [lia | done]
        | done ].
    + replace (i + Z.of_nat (S j)) with (i + 1 + Z.of_nat j) by lia.
      apply IH; try done.
      intros j' Hj' Hg. apply (Hlast (S j')); [lia | done].
Qed.

(** No family has graphics: presentation ends as the last family that
    presents. *)
Lemma loop_presentation_only_last l : ∀ i indices j,
  graphicsFamily indices = None →
  (∀ k, ¬ graphicsAt l k) →
  presentAt drv surface device l i j →
  (∀ j', (j < j')%nat → ¬ presentAt drv surface device l i j') →
  presentationFamily (loop l i indices) = Some (to_uint32 (i + Z.of_nat j)).
Proof.
  induction l as [|q l IH]; intros i indices j Hnone Hg Hj Hlast.
  - destruct Hj as [Hj _]. simpl in Hj. lia.
  - simpl. destruct (hasGraphics q) eqn:Hq.
    { destruct (Hg 0%nat). by apply graphicsAt_head. }
    rewrite (IsComplete_no_graphics indices Hnone).
    assert (∀ k, ¬ graphicsAt l k) as Hg'.
    { intros k Hk. by apply (Hg (S k)). }
    destruct j as [|j].
    + apply presentAt_head in Hj. rewrite Hj.
      rewrite loop_idle;
        [ simpl; f_equal; f_equal; lia
        | by apply IsComplete_no_graphics
        | done
        | intros k Hk; apply (Hlast (S k)); [lia | by apply presentAt_tail] ].
    + replace (i + Z.of_nat (S j)) with (i + 1 + Z.of_nat j) by lia.
      apply presentAt_tail in Hj.
      assert (∀ j', (j < j')%nat → ¬ presentAt drv surface device l (i + 1) j')
        as Hlast'.
      { intros j' Hj' Hp. apply (Hlast (S j')); [lia | by apply presentAt_tail]. }
      destruct (supports i); by apply IH.
Qed.

End QueueFamiliesOverwrite.

Lemma presentAt_offersPresentation drv surface device k :
  Z.of_nat (length (vkGetPhysicalDeviceQueueFamilyProperties drv device)) ≤ INT_MAX →
  presentAt drv surface device
    (vkGetPhysicalDeviceQueueFamilyProperties drv device) 0 k
  ↔ offersPresentation drv surface device k.
Proof.
  intros Hlen. unfold presentAt, offersPresentation. unfold INT_MAX in Hlen.
  split; intros [Hk Hs]; (split; [done|]).
  - rewrite to_uint32_small in Hs; [done|]. unfold is_uint32, UINT32_MAX. lia.
  - rewrite to_uint32_small; [done|]. unfold is_uint32, UINT32_MAX. lia.
Qed.

(** C2 as stated fails: with two families that both offer graphics and
    presentation, family 0 is the first to offer graphics, yet
    graphicsFamily ends up as 1 (and presentationFamily as 0). *)
Lemma findQueueFamilies_not_first_graphics :
  offersGraphics twoGraphicsDriver 7 0
  ∧ findQueueFamilies twoGraphicsDriver 4 7
    = {| graphicsFamily := Some 1; presentationFamily := Some 0 |}
  ∧ graphicsFamily (findQueueFamilies twoGraphicsDriver 4 7) ≠ Some 0.
Proof.
  split; [|split; [reflexivity | discriminate]]. eexists. split; reflexivity.
Qed.

Lemma findQueueFamilies_overwritten drv surface device :
  Z.of_nat (length (vkGetPhysicalDeviceQueueFamilyProperties drv device)) ≤ INT_MAX →
  let indices := findQueueFamilies drv surface device in
  let n := length (vkGetPhysicalDeviceQueueFamilyProperties drv device) in
  (∀ fg p,
     firstWith (offersGraphics drv device) fg →
     lastBelow (offersPresentation drv surface device) fg p →
     presentationFamily indices = Some (Z.of_nat p))
  ∧ (∀ fp,
       firstWith (offersPresentation drv surface device) fp →
       offersGraphics drv device (S fp) →
       graphicsFamily indices = Some (Z.of_nat (S fp)))
  ∧ (∀ fp g,
       firstWith (offersPresentation drv surface device) fp →
       ¬ offersGraphics drv device (S fp) →
       lastBelow (offersGraphics drv device) (S fp) g →
       graphicsFamily indices = Some (Z.of_nat g))
  ∧ ((∀ k, ¬ offersPresentation drv surface device k) →
     ∀ g, lastBelow (offersGraphics drv device) n g →
          graphicsFamily indices = Some (Z.of_nat g))
  ∧ ((∀ k, ¬ offersGraphics drv device k) →
     ∀ p, lastBelow (offersPresentation drv surface device) n p →
          presentationFamily indices = Some (Z.of_nat p)).
Proof.
  intros Hlen. cbv zeta. unfold findQueueFamilies.
  pose proof (presentAt_offersPresentation drv surface device) as Hpa.
  unfold offersGraphics in *.
  set (fams := vkGetPhysicalDeviceQueueFamilyProperties drv device) in *.
  set (none := {| graphicsFamily := None; presentationFamily := None |}).
  change (∀ k, Z.of_nat (length fams) ≤ INT_MAX →
               presentAt drv surface device fams 0 k
               ↔ offersPresentation drv surface device k) in Hpa.
  assert (∀ k, (k < length fams)%nat → to_uint32 (0 + Z.of_nat k) = Z.of_nat k)
    as Hidx.
  { intros k Hk. unfold INT_MAX in Hlen. apply to_uint32_small.
    unfold is_uint32, UINT32_MAX. lia. }
  assert (∀ k, offersPresentation drv surface device k → (k < length fams)%nat)
    as Hplt by (by intros k [Hk _]).
  assert (∀ k, graphicsAt fams k → (k < length fams)%nat) as Hglt.
  { intros k (q & Hq & _). by apply lookup_lt_Some in Hq. }
  split; [|split; [|split; [|split]]].
  - intros fg p [Hfg Hfirst] (Hlt & Hp & Hlast).
    rewrite <- (Hidx p) by (by apply Hplt).
    apply (loop_graphics_stop_last drv surface device fams 0 none fg p);
      try done.
    + by apply Hpa.
    + intros j Hj Hpj. apply (Hlast j Hj). by apply Hpa.
  - intros fp [Hfp Hfirst] Hnext.
    rewrite <- (Hidx (S fp)) by (by apply Hglt).
    apply (loop_presentation_stop_next drv surface device fams 0 none fp);
      try done.
    + by apply Hpa.
    + intros j Hj Hpj. apply (Hfirst j Hj). by apply Hpa.
  - intros fp g [Hfp Hfirst] Hnext (Hlt & Hg & Hlast).
    rewrite <- (Hidx g) by (by apply Hglt).
    apply (loop_presentation_stop_last drv surface device fams 0 none fp g);
      try done.
    + by apply Hpa.
    + intros j Hj Hpj. apply (Hfirst j Hj). by apply Hpa.
    + lia.
    + intros j Hj Hgj. destruct (decide (j = S fp)) as [->|Hne]; [done|].
      apply (Hlast j); [lia | done].
  - intros Hnop g (Hlt & Hg & Hlast).
    rewrite <- (Hidx g) by done.
    apply (loop_graphics_only_last drv surface device fams 0 none g); try done.
    + intros k Hk. apply (Hnop k). by apply Hpa.
    + intros j Hj Hgj. apply (Hlast j); [|done]. split; [done | by apply Hglt].
  - intros Hnog p (Hlt & Hp & Hlast).
    rewrite <- (Hidx p) by done.
    apply (loop_presentation_only_last drv surface device fams 0 none p);
      try done.
    + by apply Hpa.
    + intros j Hj Hpj. apply Hpa in Hpj; [|done].
      apply (Hlast j); [|done]. split; [done | by apply Hplt].
Qed.

(** C2, amended. For a device with at most INT_MAX queue families,
    findQueueFamilies records in graphicsFamily the index of a family that
    offers graphics and in presentationFamily the index of a family that
    passes the presentation-support query; a field is recorded exactly
    when some family has the capability. Every family with the capability
    overwrites the field until the scan stops, which is right after the
    graphics test of the first family at which both fields are recorded;
    so each field holds the last such family visited, not the first:
    - presentation first occurs before graphics: graphicsFamily is the
      first graphics family, presentationFamily the last presenting family
      before it;
    - graphics first occurs at or before presentation: presentationFamily
      is the first presenting family, graphicsFamily the family right
      after it when that one offers graphics, and otherwise the last
      graphics family up to it;
    - only one capability occurs: its field is the last family of the
      whole list that has it. *)
Theorem findQueueFamilies_records (drv : VkDriver) (surface device : VkHandle) :
  Z.of_nat (length (vkGetPhysicalDeviceQueueFamilyProperties drv device)) ≤ INT_MAX →
  let indices := findQueueFamilies drv surface device in
  let n := length (vkGetPhysicalDeviceQueueFamilyProperties drv device) in
  (∀ g, graphicsFamily indices = Some g →
        ∃ k, g = Z.of_nat k ∧ offersGraphics drv device k)
  ∧ (∀ p, presentationFamily indices = Some p →
        ∃ k, p = Z.of_nat k ∧ offersPresentation drv surface device k)
  ∧ (is_Some (graphicsFamily indices) ↔ ∃ k, offersGraphics drv device k)
  ∧ (is_Some (presentationFamily indices)
     ↔ ∃ k, offersPresentation drv surface device k)
  ∧ (∀ fg fp,
       firstWith (offersGraphics drv device) fg →
       firstWith (offersPresentation drv surface device) fp →
       ((fp < fg)%nat → graphicsFamily indices = Some (Z.of_nat fg))
       ∧ ((fg ≤ fp)%nat → presentationFamily indices = Some (Z.of_nat fp)))
  ∧ (∀ fg p,
       firstWith (offersGraphics drv device) fg →
       lastBelow (offersPresentation drv surface device) fg p →
       presentationFamily indices = Some (Z.of_nat p))
  ∧ (∀ fp,
       firstWith (offersPresentation drv surface device) fp →
       offersGraphics drv device (S fp) →
       graphicsFamily indices = Some (Z.of_nat (S fp)))
  ∧ (∀ fp g,
       firstWith (offersPresentation drv surface device) fp →
       ¬ offersGraphics drv device (S fp) →
       lastBelow (offersGraphics drv device) (S fp) g →
       graphicsFamily indices = Some (Z.of_nat g))
  ∧ ((∀ k, ¬ offersPresentation drv surface device k) →
     ∀ g, lastBelow (offersGraphics drv device) n g →
          graphicsFamily indices = Some (Z.of_nat g))
  ∧ ((∀ k, ¬ offersGraphics drv device k) →
     ∀ p, lastBelow (offersPresentation drv surface device) n p →
          presentationFamily indices = Some (Z.of_nat p)).
Proof.
  intros Hlen. cbv zeta.
  pose proof (findQueueFamilies_overwritten drv surface device Hlen) as Hover.
  cbv zeta in Hover. revert Hover. unfold findQueueFamilies.
  intros Hover.
  set (fams := vkGetPhysicalDeviceQueueFamilyProperties drv device) in *.
  set (none := {| graphicsFamily := None; presentationFamily := None |}).
  assert (∀ k, (k < length fams)%nat → to_uint32 (0 + Z.of_nat k) = Z.of_nat k)
    as Hidx.
  { intros k Hk. unfold INT_MAX in Hlen. apply to_uint32_small.
    unfold is_uint32, UINT32_MAX. lia. }
  assert (∀ g, graphicsFamily (findQueueFamilies_loop drv surface device fams 0 none)
               = Some g → ∃ k, g = Z.of_nat k ∧ offersGraphics drv device k) as Hg.
  { intros g Hr.
    destruct (proj1 (loop_sound drv surface device fams 0 none) g Hr)
      as [Hold|(k & Hk & ->)]; [done|].
    exists k. split; [|done]. apply Hidx.
    destruct Hk as (q & Hq & _). by apply lookup_lt_Some in Hq. }
  assert (∀ p, presentationFamily (findQueueFamilies_loop drv surface device fams 0 none)
               = Some p → ∃ k, p = Z.of_nat k ∧ offersPresentation drv surface device k)
    as Hp.
  { intros p Hr.
    destruct (proj2 (loop_sound drv surface device fams 0 none) p Hr)
      as [Hold|(k & Hk & ->)]; [done|].
    exists k. split; [apply Hidx; by destruct Hk|].
    by apply presentAt_offersPresentation. }
  split; [done|]. split; [done|]. split; [|split; [|split; [|exact Hover]]].
  - split.
    + intros [g Hr]. destruct (Hg g Hr) as (k & _ & Hk). by exists k.
    + intros Hk. by apply loop_finds.
  - split.
    + intros [p Hr]. destruct (Hp p Hr) as (k & _ & Hk). by exists k.
    + intros [k Hk]. apply loop_finds. exists k.
      by apply presentAt_offersPresentation.
  - intros fg fp [Hfg Hfg_first] [Hfp Hfp_first]. split; intros Hord.
    + rewrite <- (Hidx fg).
      2:{ destruct Hfg as (q & Hq & _). by apply lookup_lt_Some in Hq. }
      apply loop_graphics_first; try done.
      right. exists fp. split; [done|]. by apply presentAt_offersPresentation.
    + rewrite <- (Hidx fp) by (by destruct Hfp).
      apply loop_presentation_first; try done.
      * by apply presentAt_offersPresentation.
      * intros j Hj Hpj. apply (Hfp_first j Hj).
        by apply presentAt_offersPresentation.
      * right. by exists fg.
Qed.

Lemma findQueueFamilies_records_witness :
  findQueueFamilies lateSupportDriver 4 7
  = {| graphicsFamily := Some 1; presentationFamily := Some 1 |}
  ∧ findQueueFamilies splitFamiliesDriver 4 7
    = {| graphicsFamily := Some 2; presentationFamily := Some 1 |}.
Proof.
  assert (∀ r g p, graphicsFamily r = Some g → presentationFamily r = Some p →
                   r = {| graphicsFamily := Some g; presentationFamily := Some p |})
    as Hrecord.
  { intros [g0 p0] g p. simpl. by intros -> ->. }
  split; apply Hrecord.
  - refine (proj1 (proj2 (proj2 (proj2 (proj2 (proj2 (proj2 (proj2
      (findQueueFamilies_records lateSupportDriver 4 7 _))))))))
      1%nat 1%nat _ _ _).
    + vm_compute. discriminate.
    + split; [split; [simpl; lia | reflexivity]|].
      intros j Hj [_ Hs]. assert (j = 0%nat) as -> by lia. discriminate.
    + intros (q & Hq & _). discriminate.
    + split; [lia|]. split; [eexists; split; reflexivity|]. intros j Hj. lia.
  - refine (proj2 (proj1 (proj2 (proj2 (proj2 (proj2
      (findQueueFamilies_records lateSupportDriver 4 7 _)))))
      0%nat 1%nat _ _) _).
    + vm_compute. discriminate.
    + split; [eexists; split; reflexivity | intros j Hj; lia].
    + split; [split; [simpl; lia | reflexivity]|].
      intros j Hj [_ Hs]. assert (j = 0%nat) as -> by lia. discriminate.
    + lia.
  - refine (proj1 (proj1 (proj2 (proj2 (proj2 (proj2
      (findQueueFamilies_records splitFamiliesDriver 4 7 _)))))
      2%nat 0%nat _ _) _).
    + vm_compute. discriminate.
    + split; [eexists; split; reflexivity|].
      intros j Hj (q & Hq & Hg).
      destruct j as [|[|j]]; [| |lia]; simpl in Hq; injection Hq as <-;
        discriminate.
    + split; [split; [simpl; lia | reflexivity] | intros j Hj; lia].
    + lia.
  - refine (proj1 (proj2 (proj2 (proj2 (proj2 (proj2
      (findQueueFamilies_records splitFamiliesDriver 4 7 _))))))
      2%nat 1%nat _ _).
    + vm_compute. discriminate.
    + split; [eexists; split; reflexivity|].
      intros j Hj (q & Hq & Hg).
      destruct j as [|[|j]]; [| |lia]; simpl in Hq; injection Hq as <-;
        discriminate.
    + split; [lia|]. split; [split; [simpl; lia | reflexivity]|].
      intros j Hj. lia.
Defined.

(** ** Stages that follow the selection *)

Lemma selectPhysicalDevice_loop_cases cfg drv devices s :
  selectPhysicalDevice_loop cfg drv devices s = s
  ∨ ∃ d, d ∈ devices
         ∧ isDeviceSuitable cfg drv (surface s) d = true
         ∧ selectPhysicalDevice_loop cfg drv devices s = set_physicalDevice d s.
Proof.
  induction devices as [|x rest IH]; simpl; [by left|].
  destruct (isDeviceSuitable cfg drv (surface s) x) eqn:E.
  - right. exists x. split; [left | done].
  - destruct IH as [IH|(d & Hd & Hs & IH)]; [by left|].
    right. exists d. split; [by right | done].
Qed.

Lemma selectPhysicalDevice_Ok cfg drv s s1 :
  physicalDevice s = VK_NULL_HANDLE →
  selectPhysicalDevice cfg drv s = (Ok tt, s1) →
  ∃ d, d ∈ vkEnumeratePhysicalDevices drv (instance s)
       ∧ Suitable cfg drv (surface s) d
       ∧ s1 = set_physicalDevice d s.
Proof.
  intros Hnull Hrun.
  destruct (decide (vkEnumeratePhysicalDevices drv (instance s) = [])) as [He|Hne].
  - unfold selectPhysicalDevice, bind, get in Hrun. rewrite He in Hrun. done.
  - rewrite selectPhysicalDevice_nonempty in Hrun by done. cbv zeta in Hrun.
    destruct (selectPhysicalDevice_loop_cases cfg drv
                (vkEnumeratePhysicalDevices drv (instance s)) s)
      as [Hsame|(d & Hd & Hs & Hset)].
    + rewrite Hsame, Hnull in Hrun. done.
    + rewrite Hset in Hrun. exists d. split; [done|].
      split; [by apply isDeviceSuitable_true|].
      destruct (physicalDevice (set_physicalDevice d s) =? VK_NULL_HANDLE);
        by inversion Hrun.
Qed.

Lemma createLogicalDevice_complete cfg drv s :
  IsComplete (findQueueFamilies drv (surface s) (physicalDevice s)) = true →
  fst (createLogicalDevice cfg drv s) = Ok tt
  ∨ fst (createLogicalDevice cfg drv s) = Err DeviceCreationFailed.
Proof.
  intros Hc. apply IsComplete_true in Hc as [[g Hg] [p Hp]].
  unfold createLogicalDevice, bind, get, lift. rewrite Hg, Hp. simpl.
  destruct (vkCreateDevice drv _ _) as [res h].
  destruct (succeeded res); simpl; [by left | by right].
Qed.

Lemma createSwapChain_complete cfg drv s :
  IsComplete (findQueueFamilies drv (surface s) (physicalDevice s)) = true →
  vkGetPhysicalDeviceSurfaceFormatsKHR drv (physicalDevice s) (surface s) ≠ [] →
  fst (createSwapChain cfg drv s) = Ok tt
  ∨ fst (createSwapChain cfg drv s) = Err SwapchainCreationFailed.
Proof.
  intros Hc Hf. apply IsComplete_true in Hc as [[g Hg] [p Hp]].
  destruct (createSwapChain_createInfo_Ok cfg drv (surface s) (physicalDevice s) g p)
    as (createInfo & Hinfo & _); [|done|].
  { destruct (findQueueFamilies drv (surface s) (physicalDevice s)).
    simpl in *. by subst. }
  unfold createSwapChain, bind, get, lift. rewrite Hinfo.
  destruct (vkCreateSwapchainKHR drv _ _) as [res h].
  destruct (succeeded res); simpl; [by left | by right].
Qed.

(** C10. After selectPhysicalDevice has succeeded (entered with
    [physicalDevice] still VK_NULL_HANDLE), the scan of the selected
    device yields both family indices, so in any state with the same
    surface and selected device createLogicalDevice and createSwapChain
    get past every [value()]: each ends normally or with the failure of
    its own create call, never with BadOptionalAccess. *)
Theorem unwrap_after_selection
  (cfg : FrameworkConfig) (drv : VkDriver) (s s1 : Framework) :
  physicalDevice s = VK_NULL_HANDLE →
  selectPhysicalDevice cfg drv s = (Ok tt, s1) →
  is_Some (graphicsFamily (findQueueFamilies drv (surface s1) (physicalDevice s1)))
  ∧ is_Some (presentationFamily
               (findQueueFamilies drv (surface s1) (physicalDevice s1)))
  ∧ ∀ s2, surface s2 = surface s1 → physicalDevice s2 = physicalDevice s1 →
      (fst (createLogicalDevice cfg drv s2) = Ok tt
       ∨ fst (createLogicalDevice cfg drv s2) = Err DeviceCreationFailed)
      ∧ (fst (createSwapChain cfg drv s2) = Ok tt
         ∨ fst (createSwapChain cfg drv s2) = Err SwapchainCreationFailed)
      ∧ fst (createLogicalDevice cfg drv s2) ≠ Err BadOptionalAccess
      ∧ fst (createSwapChain cfg drv s2) ≠ Err BadOptionalAccess.
Proof.
  intros Hnull Hrun.
  destruct (selectPhysicalDevice_Ok cfg drv s s1 Hnull Hrun)
    as (d & _ & (Hq & _ & Hf & _) & ->).
  simpl. destruct Hq as [Hg Hp]. split; [done|]. split; [done|].
  intros s2 Hsurf Hdev. simpl in Hsurf, Hdev.
  assert (fst (createLogicalDevice cfg drv s2) = Ok tt
          ∨ fst (createLogicalDevice cfg drv s2) = Err DeviceCreationFailed) as Hld.
  { apply createLogicalDevice_complete. rewrite Hsurf, Hdev.
    by apply IsComplete_true. }
  assert (fst (createSwapChain cfg drv s2) = Ok tt
          ∨ fst (createSwapChain cfg drv s2) = Err SwapchainCreationFailed) as Hsc.
  { apply createSwapChain_complete; rewrite Hsurf, Hdev; [|done].
    by apply IsComplete_true. }
  split; [done|]. split; [done|].
  split; [destruct Hld as [-> | ->] | destruct Hsc as [-> | ->]]; discriminate.
Qed.

Lemma unwrap_after_selection_witness :
  fst (createLogicalDevice debugConfig sampleDriver
         (set_physicalDevice 7 newFramework)) ≠ Err BadOptionalAccess
  ∧ fst (createSwapChain debugConfig sampleDriver
           (set_physicalDevice 7 newFramework)) ≠ Err BadOptionalAccess.
Proof.
  destruct (unwrap_after_selection debugConfig sampleDriver newFramework
              (set_physicalDevice 7 newFramework) eq_refl eq_refl)
    as (_ & _ & H).
  destruct (H (set_physicalDevice 7 newFramework) eq_refl eq_refl)
    as (_ & _ & H1 & H2).
  exact (conj H1 H2).
Defined.

(** ** The call log of start-up and cleanup *)

Lemma bind_Ok {A B} (m : Stage A) (k : A → Stage B) s b s' :
  bind m k s = (Ok b, s') → ∃ a s1, m s = (Ok a, s1) ∧ k a s1 = (Ok b, s').
Proof.
  unfold bind. destruct (m s) as [[a|e] s1]; [|done]. intros H. by exists a, s1.
Qed.

Lemma acquired_app l1 l2 : acquired (l1 ++ l2) = acquired l1 ++ acquired l2.
Proof. apply omap_app. Qed.

Lemma released_app l1 l2 : released (l1 ++ l2) = released l1 ++ released l2.
Proof. apply omap_app. Qed.

Lemma acquires_nil s : acquires [] s s.
Proof. split; [by rewrite app_nil_r | done]. Qed.

Lemma acquires_trans rs1 rs2 s1 s2 s3 :
  acquires rs1 s1 s2 → acquires rs2 s2 s3 → acquires (rs1 ++ rs2) s1 s3.
Proof.
  intros [Ha1 Hr1] [Ha2 Hr2]. split.
  - by rewrite Ha2, Ha1, app_assoc.
  - by rewrite Hr2.
Qed.

Lemma acquires_logCall r h s0 s :
  calls s = calls s0 → acquires [r] s0 (logCall (Acquire r h) s).
Proof.
  intros Hsame. split; simpl; rewrite Hsame.
  - by rewrite acquired_app.
  - rewrite released_app. simpl. by rewrite app_nil_r.
Qed.

Lemma initWindow_acquires drv s :
  ∃ s', initWindow drv s = (Ok tt, s') ∧ acquires [ResGlfw; ResWindow] s s'.
Proof.
  unfold initWindow, bind, modify. simpl.
  eexists. split; [reflexivity|]. split; simpl.
  - rewrite !acquired_app. simpl. by rewrite <- app_assoc.
  - rewrite !released_app. simpl. by rewrite !app_nil_r.
Qed.

Lemma createInstance_acquires cfg drv s s' :
  createInstance cfg drv s = (Ok tt, s') →
  acquires [ResInstance] s s' ∧ swapChainImageViews s' = swapChainImageViews s.
Proof.
  unfold createInstance.
  destruct (enableValidationLayers cfg && negb (isValidationLayerSupported cfg drv));
    [done|].
  destruct (vkCreateInstance drv _) as [res h].
  destruct (succeeded res); simpl; [|done].
  intros [= <-]. split; [|done]. by apply acquires_logCall.
Qed.

Lemma createDebugMessenger_acquires cfg drv s s' :
  createDebugMessenger cfg drv s = (Ok tt, s') →
  acquires (if enableValidationLayers cfg then [ResDebugMessenger] else []) s s'.
Proof.
  unfold createDebugMessenger.
  destruct (enableValidationLayers cfg); simpl.
  - unfold bind, get.
    destruct (createDebugUtilsMessengerEXT drv _ _ _) as [res h].
    destruct (succeeded res); simpl; [|done].
    intros [= <-].
    by apply acquires_logCall.
  - intros [= <-]. apply acquires_nil.
Qed.

Lemma createSurface_acquires drv s s' :
  createSurface drv s = (Ok tt, s') → acquires [ResSurface] s s'.
Proof.
  unfold createSurface, bind, get.
  destruct (glfwCreateWindowSurface drv _ _) as [res h].
  destruct (succeeded res); simpl; [|done].
  intros [= <-]. by apply acquires_logCall.
Qed.

Lemma selectPhysicalDevice_loop_calls cfg drv devices s :
  calls (selectPhysicalDevice_loop cfg drv devices s) = calls s.
Proof.
  destruct (selectPhysicalDevice_loop_cases cfg drv devices s)
    as [->|(d & _ & _ & ->)]; done.
Qed.

Lemma selectPhysicalDevice_acquires cfg drv s s' :
  selectPhysicalDevice cfg drv s = (Ok tt, s') → acquires [] s s'.
Proof.
  intros Hrun.
  destruct (decide (vkEnumeratePhysicalDevices drv (instance s) = [])) as [He|Hne].
  - unfold selectPhysicalDevice, bind, get in Hrun. rewrite He in Hrun. done.
  - rewrite selectPhysicalDevice_nonempty in Hrun by done. cbv zeta in Hrun.
    destruct (physicalDevice _ =? VK_NULL_HANDLE); [done|].
    injection Hrun as <-. unfold acquires.
    rewrite selectPhysicalDevice_loop_calls. by rewrite app_nil_r.
Qed.

Lemma createLogicalDevice_acquires cfg drv s s' :
  createLogicalDevice cfg drv s = (Ok tt, s') → acquires [ResDevice] s s'.
Proof.
  unfold createLogicalDevice, bind, get, lift.
  destruct (value (graphicsFamily _)) as [g|]; [|done].
  destruct (value (presentationFamily _)) as [p|]; [|done].
  destruct (vkCreateDevice drv _ _) as [res h].
  destruct (succeeded res); simpl; [|done].
  intros [= <-]. by apply acquires_logCall.
Qed.

Lemma createSwapChain_acquires cfg drv s s' :
  createSwapChain cfg drv s = (Ok tt, s') → acquires [ResSwapchain] s s'.
Proof.
  unfold createSwapChain, bind, get, lift.
  destruct (createSwapChain_createInfo cfg drv _ _) as [createInfo|]; [|done].
  destruct (vkCreateSwapchainKHR drv _ _) as [res h].
  destruct (succeeded res); simpl; [|done].
  intros [= <-]. by apply acquires_logCall.
Qed.

Lemma createImageViews_loop_acquires drv images : ∀ i s s',
  createImageViews_loop drv images i s = (Ok tt, s') →
  acquires (replicate (length images) ResImageView) s s'
  ∧ length (swapChainImageViews s') = length (swapChainImageViews s)
  ∧ swapChainImages s' = swapChainImages s.
Proof.
  induction images as [|image rest IH]; intros i s s'; simpl.
  - intros [= <-]. split; [apply acquires_nil | done].
  - unfold bind at 1. unfold get at 1.
    destruct (vkCreateImageView drv _ _) as [res h].
    destruct (succeeded res); simpl; [|done].
    unfold bind at 1. unfold modify at 1. unfold bind at 1. unfold modify at 1.
    intros Hrun. apply IH in Hrun as (Hacq & Hlen & Himg).
    split; [|split].
    + change (ResImageView :: replicate (length rest) ResImageView)
        with ([ResImageView] ++ replicate (length rest) ResImageView).
      eapply acquires_trans; [|exact Hacq]. by apply acquires_logCall.
    + rewrite Hlen. simpl. apply length_insert.
    + rewrite Himg. done.
Qed.

Lemma createImageViews_acquires drv s s' :
  createImageViews drv s = (Ok tt, s') →
  acquires (replicate (length (swapChainImages s')) ResImageView) s s'
  ∧ length (swapChainImageViews s') = length (swapChainImages s').
Proof.
  unfold createImageViews. unfold bind at 1. unfold get at 1.
  unfold bind at 1. unfold modify at 1.
  intros Hrun. apply createImageViews_loop_acquires in Hrun as (Hacq & Hlen & Himg).
  simpl in *. rewrite Himg. split; [done|]. rewrite Hlen. apply length_resize.
Qed.

Lemma cleanup_imageViews_calls views : ∀ s,
  ∃ s', cleanup_imageViews views s = (Ok tt, s')
        ∧ calls s' = calls s ++ (Release ResImageView <$> views).
Proof.
  induction views as [|v rest IH]; intros s; simpl.
  - exists s. split; [done | by rewrite app_nil_r].
  - unfold bind, modify.
    destruct (IH (logCall (Release ResImageView v) s)) as (s' & Hrun & Hcalls).
    exists s'. split; [done|]. rewrite Hcalls. simpl. by rewrite <- app_assoc.
Qed.

Lemma cleanup_calls cfg drv s :
  ∃ s', cleanup cfg drv s = (Ok tt, s')
        ∧ calls s' =
            calls s
            ++ (Release ResImageView <$> swapChainImageViews s)
            ++ [Release ResSwapchain (swapChain s); Release ResDevice (device s)]
            ++ (if enableValidationLayers cfg
                   && vkGetInstanceProcAddr drv (instance s)
                        "vkDestroyDebugUtilsMessengerEXT"
                then [Release ResDebugMessenger (debugMessenger s)] else [])
            ++ [Release ResSurface (surface s); Release ResInstance (instance s);
                Release ResWindow (window s); Release ResGlfw VK_NULL_HANDLE].
Proof.
  destruct (cleanup_imageViews_calls (swapChainImageViews s) s)
    as (s' & Hrun & Hcalls).
  unfold cleanup, destroyDebugUtilsMessengerEXT. unfold bind at 1. unfold get.
  unfold bind at 1. rewrite Hrun.
  destruct (enableValidationLayers cfg);
    [destruct (vkGetInstanceProcAddr drv (instance s)
                 "vkDestroyDebugUtilsMessengerEXT")|];
    (eexists; split; [reflexivity|]); simpl; rewrite Hcalls;
    by rewrite <- !app_assoc.
Qed.

Lemma released_Release_ImageView views :
  released (Release ResImageView <$> views)
  = replicate (length views) ResImageView.
Proof. induction views as [|v rest IH]; simpl; [done | by f_equal]. Qed.

Lemma acquired_Release_ImageView views :
  acquired (Release ResImageView <$> views) = [].
Proof. induction views as [|v rest IH]; simpl; done. Qed.

Lemma startUp_acquires cfg drv s0 s1 :
  startUp cfg drv s0 = (Ok tt, s1) →
  acquires
    ([ResGlfw; ResWindow; ResInstance]
     ++ (if enableValidationLayers cfg then [ResDebugMessenger] else [])
     ++ [ResSurface; ResDevice; ResSwapchain]
     ++ replicate (length (swapChainImages s1)) ResImageView) s0 s1
  ∧ length (swapChainImageViews s1) = length (swapChainImages s1).
Proof.
  unfold startUp, initVulkan. intros Hrun.
  apply bind_Ok in Hrun as ([] & sw & Hwin & Hrun).
  destruct (initWindow_acquires drv s0) as (sw' & Hwin' & Hw).
  rewrite Hwin in Hwin'. injection Hwin' as <-.
  apply bind_Ok in Hrun as ([] & si & Hinst & Hrun).
  apply createInstance_acquires in Hinst as [Hi _].
  apply bind_Ok in Hrun as ([] & sd & Hdbg & Hrun).
  apply createDebugMessenger_acquires in Hdbg.
  apply bind_Ok in Hrun as ([] & ss & Hsurf & Hrun).
  apply createSurface_acquires in Hsurf.
  apply bind_Ok in Hrun as ([] & sp & Hsel & Hrun).
  apply selectPhysicalDevice_acquires in Hsel.
  apply bind_Ok in Hrun as ([] & sl & Hdev & Hrun).
  apply createLogicalDevice_acquires in Hdev.
  apply bind_Ok in Hrun as ([] & sc & Hswap & Hrun).
  apply createSwapChain_acquires in Hswap.
  apply createImageViews_acquires in Hrun as [Hviews Hlen].
  split; [|done].
  pose proof (acquires_trans _ _ _ _ _ Hw Hi) as H1.
  pose proof (acquires_trans _ _ _ _ _ H1 Hdbg) as H2.
  pose proof (acquires_trans _ _ _ _ _ H2 Hsurf) as H3.
  pose proof (acquires_trans _ _ _ _ _ H3 Hsel) as H4.
  pose proof (acquires_trans _ _ _ _ _ H4 Hdev) as H5.
  pose proof (acquires_trans _ _ _ _ _ H5 Hswap) as H6.
  pose proof (acquires_trans _ _ _ _ _ H6 Hviews) as H7.
  destruct H7 as [Ha Hr]. split; [|done]. rewrite Ha. f_equal.
  destruct (enableValidationLayers cfg); reflexivity.
Qed.

(** C3 as stated fails: in a debug build the debug messenger is created
    before the surface and also destroyed before the surface, so the
    releases are not the acquisitions read backwards. *)
Lemma cleanup_not_reverse_in_debug_build :
  fst (startUp debugConfig sampleDriver newFramework) = Ok tt
  ∧ acquired (calls (snd (startUp debugConfig sampleDriver newFramework)))
    = [ResGlfw; ResWindow; ResInstance; ResDebugMessenger; ResSurface;
       ResDevice; ResSwapchain; ResImageView; ResImageView; ResImageView]
  ∧ released (calls (snd (cleanup debugConfig sampleDriver
                            (snd (startUp debugConfig sampleDriver newFramework)))))
    = [ResImageView; ResImageView; ResImageView; ResSwapchain; ResDevice;
       ResDebugMessenger; ResSurface; ResInstance; ResWindow; ResGlfw]
  ∧ released (calls (snd (cleanup debugConfig sampleDriver
                            (snd (startUp debugConfig sampleDriver newFramework)))))
    ≠ reverse (acquired
                 (calls (snd (startUp debugConfig sampleDriver newFramework)))).
Proof.
  split; [reflexivity|]. split; [reflexivity|]. split; [reflexivity|].
  vm_compute. discriminate.
Qed.

(** C3, amended. After a start-up that succeeded, the resources were
    acquired in the order GLFW, window, instance, debug messenger (only
    with validation layers enabled), surface, logical device, swapchain,
    image views. cleanup releases image views, swapchain, logical device,
    then the debug messenger (only with validation layers enabled, and
    only if its destroy entry point resolves), then surface, instance,
    window, GLFW. With validation layers disabled this is exactly the
    reverse of the acquisition order; with them enabled the debug
    messenger and the surface keep their creation order. *)
Theorem cleanup_order (cfg : FrameworkConfig) (drv : VkDriver) (s0 s1 : Framework) :
  calls s0 = [] →
  startUp cfg drv s0 = (Ok tt, s1) →
  let views := replicate (length (swapChainImages s1)) ResImageView in
  let hooked :=
    vkGetInstanceProcAddr drv (instance s1) "vkDestroyDebugUtilsMessengerEXT" in
  let created := acquired (calls s1) in
  let destroyed := released (calls (snd (cleanup cfg drv s1))) in
  fst (cleanup cfg drv s1) = Ok tt
  ∧ created =
      [ResGlfw; ResWindow; ResInstance]
      ++ (if enableValidationLayers cfg then [ResDebugMessenger] else [])
      ++ [ResSurface; ResDevice; ResSwapchain] ++ views
  ∧ destroyed =
      views ++ [ResSwapchain; ResDevice]
      ++ (if enableValidationLayers cfg && hooked then [ResDebugMessenger] else [])
      ++ [ResSurface; ResInstance; ResWindow; ResGlfw]
  ∧ (enableValidationLayers cfg = false → destroyed = reverse created).
Proof.
  intros Hlog Hrun. cbv zeta.
  destruct (startUp_acquires cfg drv s0 s1 Hrun) as [[Hacq Hrel] Hlen].
  rewrite Hlog in Hacq, Hrel. simpl in Hacq, Hrel.
  destruct (cleanup_calls cfg drv s1) as (s2 & Hclean & Hcalls).
  rewrite Hclean. simpl. rewrite Hcalls.
  assert (released
            (calls s1 ++ (Release ResImageView <$> swapChainImageViews s1)
             ++ [Release ResSwapchain (swapChain s1); Release ResDevice (device s1)]
             ++ (if enableValidationLayers cfg
                    && vkGetInstanceProcAddr drv (instance s1)
                         "vkDestroyDebugUtilsMessengerEXT"
                 then [Release ResDebugMessenger (debugMessenger s1)] else [])
             ++ [Release ResSurface (surface s1); Release ResInstance (instance s1);
                 Release ResWindow (window s1); Release ResGlfw VK_NULL_HANDLE])
          = replicate (length (swapChainImages s1)) ResImageView
            ++ [ResSwapchain; ResDevice]
            ++ (if enableValidationLayers cfg
                   && vkGetInstanceProcAddr drv (instance s1)
                        "vkDestroyDebugUtilsMessengerEXT"
                then [ResDebugMessenger] else [])
            ++ [ResSurface; ResInstance; ResWindow; ResGlfw]) as Hdestroyed.
  { rewrite !released_app, Hrel, released_Release_ImageView, Hlen. simpl.
    by destruct (enableValidationLayers cfg && _). }
  split; [done|]. split; [done|]. split; [done|].
  intros Hoff. rewrite Hdestroyed, Hacq, Hoff. simpl.
  rewrite !reverse_cons, reverse_replicate. simpl. by rewrite <- !app_assoc.
Qed.

Lemma cleanup_order_witness :
  released (calls (snd (cleanup releaseConfig sampleDriver
                          (snd (startUp releaseConfig sampleDriver newFramework)))))
  = reverse (acquired
               (calls (snd (startUp releaseConfig sampleDriver newFramework)))).
Proof.
  refine (proj2 (proj2 (proj2
    (cleanup_order releaseConfig sampleDriver newFramework
       (snd (startUp releaseConfig sampleDriver newFramework))
       eq_refl eq_refl))) eq_refl).
Defined.

(** * Further properties of the stages *)

(** ** Layers, extensions and negotiation *)

(** X1. isValidationLayerSupported answers true exactly when every
    requested layer name is among the enumerated layers; with no layer
    requested it answers true whatever the driver enumerates. *)
Theorem isValidationLayerSupported_all_found
  (cfg : FrameworkConfig) (drv : VkDriver) :
  (isValidationLayerSupported cfg drv = true
   ↔ ∀ layerName, layerName ∈ validationLayers cfg →
                  layerName ∈ vkEnumerateInstanceLayerProperties drv)
  ∧ (validationLayers cfg = [] → isValidationLayerSupported cfg drv = true).
Proof.
  unfold isValidationLayerSupported. split.
  - destruct (isValidationLayerSupported_scan (validationLayers cfg)
                (vkEnumerateInstanceLayerProperties drv)) eqn:E.
    + split; [intros _ | done]. intros l Hl.
      destruct (decide (l ∈ vkEnumerateInstanceLayerProperties drv)) as [|Hn];
        [done|].
      assert (isValidationLayerSupported_scan (validationLayers cfg)
                (vkEnumerateInstanceLayerProperties drv) = false) as Hf.
      { apply isValidationLayerSupported_scan_false. by exists l. }
      congruence.
    + apply isValidationLayerSupported_scan_false in E as (l & Hl & Hn).
      split; [done|]. intros Hall. destruct Hn. by apply Hall.
  - intros ->. reflexivity.
Qed.

(** X2. checkDeviceExtensionSupport answers true exactly when every
    required device extension is among the extensions the device
    enumerates; order and repetitions in either list play no part. *)
Theorem checkDeviceExtensionSupport_superset
  (cfg : FrameworkConfig) (drv : VkDriver) (device : VkHandle) :
  checkDeviceExtensionSupport cfg drv device = true
  ↔ ∀ name, name ∈ deviceExtensions cfg →
            name ∈ vkEnumerateDeviceExtensionProperties drv device.
Proof.
  unfold checkDeviceExtensionSupport.
  rewrite bool_decide_eq_true, erase_all. split.
  - intros Hempty name Hin.
    destruct (decide (name ∈ vkEnumerateDeviceExtensionProperties drv device))
      as [|Hmissing]; [done|].
    assert (name ∈ (list_to_set (deviceExtensions cfg) : gset string)
                     ∖ list_to_set (vkEnumerateDeviceExtensionProperties drv device))
      as Hleft.
    { apply elem_of_difference. by rewrite !elem_of_list_to_set. }
    rewrite Hempty in Hleft. by apply elem_of_empty in Hleft.
  - intros Hall. apply set_eq. intros name. split.
    + rewrite elem_of_difference, !elem_of_list_to_set. intros [Hin Hmissing].
      destruct Hmissing. by apply Hall.
    + intros Hin. by apply elem_of_empty in Hin.
Qed.

(** X3. chooseSwapSurfaceFormat fails (reads past the end of the vector)
    exactly on the empty list; whatever it returns is one of the supported
    formats. *)
Theorem chooseSwapSurfaceFormat_member
  (availableFormats : list VkSurfaceFormatKHR) :
  (chooseSwapSurfaceFormat availableFormats = Err VectorOutOfRange
   ↔ availableFormats = [])
  ∧ (∀ e, chooseSwapSurfaceFormat availableFormats = Err e → e = VectorOutOfRange)
  ∧ (∀ f, chooseSwapSurfaceFormat availableFormats = Ok f → f ∈ availableFormats).
Proof.
  unfold chooseSwapSurfaceFormat.
  destruct (chooseSwapSurfaceFormat_scan availableFormats) as [f0|] eqn:E.
  - apply chooseSwapSurfaceFormat_scan_Some in E as [_ Hin].
    split; [|split].
    + split; [done|]. intros ->. by apply elem_of_nil in Hin.
    + done.
    + by intros f [= <-].
  - destruct availableFormats as [|first rest]; simpl.
    + split; [done|]. split; [by intros e [= <-] | done].
    + split; [done|]. split; [done|]. intros f [= <-]. left.
Qed.

(** X4. For a snapshot that respects the surface contract (a non-zero
    maximum is not below the minimum) and whose minimum is below
    0xFFFFFFFF, the requested image count is above the minimum, and not
    above the maximum when there is one. *)
Theorem createSwapChain_imageCount_in_bounds
  (capabilities : VkSurfaceCapabilitiesKHR) :
  0 ≤ minImageCount capabilities < UINT32_MAX →
  is_uint32 (maxImageCount capabilities) →
  (maxImageCount capabilities = 0
   ∨ minImageCount capabilities ≤ maxImageCount capabilities) →
  let imageCount := createSwapChain_imageCount capabilities in
  minImageCount capabilities ≤ imageCount
  ∧ (maxImageCount capabilities ≠ 0 → imageCount ≤ maxImageCount capabilities)
  ∧ (maxImageCount capabilities ≠ minImageCount capabilities →
     minImageCount capabilities < imageCount)
  ∧ is_uint32 imageCount.
Proof.
  intros Hlo Hhi Hcontract. cbv zeta. unfold createSwapChain_imageCount.
  unfold is_uint32, UINT32_MAX in *.
  rewrite (to_uint32_small (minImageCount capabilities + 1))
    by (unfold is_uint32, UINT32_MAX; lia).
  destruct (0 <? maxImageCount capabilities) eqn:E0;
    destruct (maxImageCount capabilities <? minImageCount capabilities + 1) eqn:E1;
    simpl; try apply Z.ltb_lt in E0; try apply Z.ltb_ge in E0;
    try apply Z.ltb_lt in E1; try apply Z.ltb_ge in E1; lia.
Qed.

Lemma createSwapChain_imageCount_in_bounds_witness :
  minImageCount sampleCapabilities < createSwapChain_imageCount sampleCapabilities.
Proof.
  refine (proj1 (proj2 (proj2
    (createSwapChain_imageCount_in_bounds sampleCapabilities _ _ _))) _).
  - unfold UINT32_MAX. simpl. lia.
  - unfold is_uint32, UINT32_MAX. simpl. lia.
  - by left.
  - discriminate.
Defined.

(** ** More on the queue family scan *)

Lemma findQueueFamilies_found drv surface device :
  Z.of_nat (length (vkGetPhysicalDeviceQueueFamilyProperties drv device)) ≤ INT_MAX →
  (is_Some (graphicsFamily (findQueueFamilies drv surface device))
   ↔ ∃ k, offersGraphics drv device k)
  ∧ (is_Some (presentationFamily (findQueueFamilies drv surface device))
     ↔ ∃ k, offersPresentation drv surface device k).
Proof.
  intros Hlen. unfold findQueueFamilies.
  set (fams := vkGetPhysicalDeviceQueueFamilyProperties drv device) in *.
  set (none := {| graphicsFamily := None; presentationFamily := None |}).
  split; split.
  - intros [g Hr].
    destruct (proj1 (loop_sound drv surface device fams 0 none) g Hr)
      as [Hold|(k & Hk & _)]; [done | by exists k].
  - intros Hk. by apply loop_finds.
  - intros [p Hr].
    destruct (proj2 (loop_sound drv surface device fams 0 none) p Hr)
      as [Hold|(k & Hk & _)]; [done|].
    exists k. by apply presentAt_offersPresentation.
  - intros [k Hk]. apply loop_finds. exists k.
    by apply presentAt_offersPresentation.
Qed.

(** X5. A device with at most INT_MAX queue families is suitable exactly
    when some family offers graphics, some family can present to the
    surface, every required extension is enumerated, and the surface has
    at least one format and one presentation mode. *)
Theorem isDeviceSuitable_iff
  (cfg : FrameworkConfig) (drv : VkDriver) (surface device : VkHandle) :
  Z.of_nat (length (vkGetPhysicalDeviceQueueFamilyProperties drv device)) ≤ INT_MAX →
  (isDeviceSuitable cfg drv surface device = true
   ↔ (∃ k, offersGraphics drv device k)
     ∧ (∃ k, offersPresentation drv surface device k)
     ∧ (∀ name, name ∈ deviceExtensions cfg →
                name ∈ vkEnumerateDeviceExtensionProperties drv device)
     ∧ vkGetPhysicalDeviceSurfaceFormatsKHR drv device surface ≠ []
     ∧ vkGetPhysicalDeviceSurfacePresentModesKHR drv device surface ≠ []).
Proof.
  intros Hlen. rewrite isDeviceSuitable_true.
  destruct (findQueueFamilies_found drv surface device Hlen) as [Hg Hp].
  unfold Suitable, QueueComplete, ExtensionsSupported, SwapchainAdequate.
  rewrite Hg, Hp. tauto.
Qed.

Lemma isDeviceSuitable_iff_witness :
  isDeviceSuitable debugConfig sampleDriver 4 7 = true.
Proof.
  apply (isDeviceSuitable_iff debugConfig sampleDriver 4 7).
  - vm_compute. discriminate.
  - split; [|split; [|split; [|split]]].
    + exists 0%nat. eexists. split; reflexivity.
    + exists 0%nat. split; [simpl; lia | reflexivity].
    + intros name Hname. apply list_elem_of_singleton in Hname as ->.
      right. left.
    + discriminate.
    + discriminate.
Defined.

Section QueueFamiliesCoincide.
Variable drv : VkDriver.
Variable surface device : VkHandle.

Local Abbreviation loop := (findQueueFamilies_loop drv surface device).

(** Nothing recorded yet, family [k] of the rest is the first with
    graphics and the first that presents, and the family after it has no
    graphics: both fields end up as that family. *)
Lemma loop_both_at l : ∀ i indices k,
  graphicsFamily indices = None →
  presentationFamily indices = None →
  graphicsAt l k →
  presentAt drv surface device l i k →
  (∀ j, (j < k)%nat → ¬ graphicsAt l j) →
  (∀ j, (j < k)%nat → ¬ presentAt drv surface device l i j) →
  ¬ graphicsAt l (S k) →
  loop l i indices
  = {| graphicsFamily := Some (to_uint32 (i + Z.of_nat k));
       presentationFamily := Some (to_uint32 (i + Z.of_nat k)) |}.
Proof.
  induction l as [|q l IH]; intros i indices k Hg0 Hp0 Hg Hp Hgf Hpf Hnext.
  - destruct Hg as (q & Hq & _). by rewrite lookup_nil in Hq.
  - destruct indices as [g0 p0]. simpl in Hg0, Hp0. subst g0 p0.
    simpl. destruct k as [|k].
    + apply graphicsAt_head in Hg. apply presentAt_head in Hp.
      rewrite Hg. simpl. rewrite Hp. rewrite Z.add_0_r.
      destruct l as [|q' l]; simpl; [done|].
      destruct (hasGraphics q') eqn:Hq'; [|done].
      destruct Hnext. apply graphicsAt_tail. by apply graphicsAt_head.
    + destruct (hasGraphics q) eqn:Hq.
      { destruct (Hgf 0%nat); [lia | by apply graphicsAt_head]. }
      simpl.
      destruct (vkGetPhysicalDeviceSurfaceSupportKHR drv device (to_uint32 i) surface)
        eqn:Hs.
      { destruct (Hpf 0%nat); [lia | by apply presentAt_head]. }
      replace (i + Z.of_nat (S k)) with (i + 1 + Z.of_nat k) by lia.
      apply IH; try done.
      * by apply presentAt_tail in Hp.
      * intros j Hj Hgj. apply (Hgf (S j)); [lia | done].
      * intros j Hj Hpj. apply (Hpf (S j)); [lia | by apply presentAt_tail].
Qed.

End QueueFamiliesCoincide.

(** X6. When the first family that offers graphics is also the first
    that can present, and the family enumerated right after it does not
    offer graphics, findQueueFamilies records that one family in both
    fields, and the swapchain sharing decision for the result is
    exclusive. *)
Theorem findQueueFamilies_coincide (drv : VkDriver) (surface device : VkHandle)
  (k : nat) :
  Z.of_nat (length (vkGetPhysicalDeviceQueueFamilyProperties drv device)) ≤ INT_MAX →
  firstWith (offersGraphics drv device) k →
  firstWith (offersPresentation drv surface device) k →
  ¬ offersGraphics drv device (S k) →
  findQueueFamilies drv surface device
  = {| graphicsFamily := Some (Z.of_nat k);
       presentationFamily := Some (Z.of_nat k) |}
  ∧ createSwapChain_sharing (findQueueFamilies drv surface device)
    = Ok (VK_SHARING_MODE_EXCLUSIVE, 0, None).
Proof.
  intros Hlen [Hg Hgf] [Hp Hpf] Hnext.
  assert (findQueueFamilies drv surface device
          = {| graphicsFamily := Some (Z.of_nat k);
               presentationFamily := Some (Z.of_nat k) |}) as ->.
  { unfold findQueueFamilies.
    rewrite (loop_both_at drv surface device _ 0 _ k); try done.
    - rewrite to_uint32_small; [done|].
      destruct Hp as [Hk _]. unfold INT_MAX in Hlen.
      unfold is_uint32, UINT32_MAX. lia.
    - by apply presentAt_offersPresentation.
    - intros j Hj Hpj. apply (Hpf j Hj). by apply presentAt_offersPresentation. }
  split; [done | apply createSwapChain_sharing_same].
Qed.

Lemma findQueueFamilies_coincide_witness :
  findQueueFamilies sampleDriver 4 7
  = {| graphicsFamily := Some 0; presentationFamily := Some 0 |}
  ∧ createSwapChain_sharing (findQueueFamilies sampleDriver 4 7)
    = Ok (VK_SHARING_MODE_EXCLUSIVE, 0, None).
Proof.
  apply (findQueueFamilies_coincide sampleDriver 4 7 0).
  - vm_compute. discriminate.
  - split; [|intros j Hj; lia]. eexists. split; reflexivity.
  - split; [|intros j Hj; lia]. split; [simpl; lia | reflexivity].
  - intros (q & Hq & _). discriminate.
Defined.

(** ** The stages one by one *)

Lemma succeeded_true res : succeeded res = true ↔ res = VK_SUCCESS.
Proof. unfold succeeded. apply Z.eqb_eq. Qed.

Lemma createInstance_unfold cfg drv s :
  createInstance cfg drv s
  = if enableValidationLayers cfg && negb (isValidationLayerSupported cfg drv)
    then (Err UnsupportedLayer, s)
    else
      let '(res, h) := vkCreateInstance drv (createInstance_createInfo cfg drv) in
      if succeeded res
      then (Ok tt, logCall (Acquire ResInstance h) (set_instance h s))
      else (Err InstanceCreationFailed, s).
Proof.
  unfold createInstance, createInstance_createInfo.
  destruct (enableValidationLayers cfg && negb (isValidationLayerSupported cfg drv));
    [done|].
  destruct (vkCreateInstance drv _) as [res h]. by destruct (succeeded res).
Qed.

Lemma createDebugMessenger_unfold cfg drv s :
  createDebugMessenger cfg drv s
  = if negb (enableValidationLayers cfg) then (Ok tt, s)
    else
      let '(res, h) :=
        createDebugUtilsMessengerEXT drv (instance s)
          initDebugMessengerCreateInfo (debugMessenger s) in
      if succeeded res
      then (Ok tt, logCall (Acquire ResDebugMessenger h) (set_debugMessenger h s))
      else (Err DiagnosticsSetupFailed, s).
Proof.
  unfold createDebugMessenger. destruct (enableValidationLayers cfg); [|done].
  unfold bind, get. simpl.
  destruct (createDebugUtilsMessengerEXT drv _ _ _) as [res h].
  by destruct (succeeded res).
Qed.

Lemma createSurface_unfold drv s :
  createSurface drv s
  = let '(res, h) := glfwCreateWindowSurface drv (instance s) (window s) in
    if succeeded res
    then (Ok tt, logCall (Acquire ResSurface h) (set_surface h s))
    else (Err SurfaceCreationFailed, s).
Proof.
  unfold createSurface, bind, get.
  destruct (glfwCreateWindowSurface drv _ _) as [res h].
  by destruct (succeeded res).
Qed.

Lemma createLogicalDevice_unfold cfg drv s :
  createLogicalDevice cfg drv s
  = let indices := findQueueFamilies drv (surface s) (physicalDevice s) in
    match graphicsFamily indices, presentationFamily indices with
    | Some g, Some p =>
        let '(res, h) :=
          vkCreateDevice drv (physicalDevice s)
            (createLogicalDevice_createInfo cfg g p) in
        if succeeded res
        then (Ok tt,
              logCall (Acquire ResDevice h)
                (set_device h (vkGetDeviceQueue drv h g 0)
                   (vkGetDeviceQueue drv h p 0) s))
        else (Err DeviceCreationFailed, s)
    | _, _ => (Err BadOptionalAccess, s)
    end.
Proof.
  unfold createLogicalDevice, createLogicalDevice_createInfo, bind, get, lift.
  cbv zeta.
  destruct (graphicsFamily _) as [g|]; simpl; [|done].
  destruct (presentationFamily _) as [p|]; simpl; [|done].
  destruct (vkCreateDevice drv _ _) as [res h]. by destruct (succeeded res).
Qed.

Lemma createSwapChain_unfold cfg drv s :
  createSwapChain cfg drv s
  = match createSwapChain_createInfo cfg drv (surface s) (physicalDevice s) with
    | Err e => (Err e, s)
    | Ok createInfo =>
        let '(res, h) := vkCreateSwapchainKHR drv (device s) createInfo in
        if succeeded res
        then (Ok tt,
              logCall (Acquire ResSwapchain h)
                (set_swapChain h (vkGetSwapchainImagesKHR drv (device s) h)
                   (imageFormat createInfo) (imageExtent createInfo) s))
        else (Err SwapchainCreationFailed, s)
    end.
Proof.
  unfold createSwapChain, bind, get, lift.
  destruct (createSwapChain_createInfo cfg drv _ _) as [createInfo|e]; [|done].
  destruct (vkCreateSwapchainKHR drv _ _) as [res h]. by destruct (succeeded res).
Qed.







(** X7. createInstance succeeds exactly when the layer check passes and
    the driver accepts the request. The request names every extension
    GLFW requires; in a debug build it also names VK_EXT_debug_utils, the
    validation layers and a messenger create info, in a release build it
    names nothing more. *)
Theorem createInstance_request (cfg : FrameworkConfig) (drv : VkDriver)
  (s : Framework) :
  let createInfo := createInstance_createInfo cfg drv in
  (fst (createInstance cfg drv s) = Ok tt
   ↔ (enableValidationLayers cfg = false ∨ isValidationLayerSupported cfg drv = true)
     ∧ fst (vkCreateInstance drv createInfo) = VK_SUCCESS)
  ∧ (∀ name, name ∈ glfwGetRequiredInstanceExtensions drv →
             name ∈ ici_enabledExtensionNames createInfo)
  ∧ (enableValidationLayers cfg = true →
       VK_EXT_DEBUG_UTILS_EXTENSION_NAME ∈ ici_enabledExtensionNames createInfo
       ∧ ici_enabledLayerNames createInfo = validationLayers cfg
       ∧ ici_pNext createInfo = Some initDebugMessengerCreateInfo)
  ∧ (enableValidationLayers cfg = false →
       ici_enabledExtensionNames createInfo = glfwGetRequiredInstanceExtensions drv
       ∧ ici_enabledLayerNames createInfo = []
       ∧ ici_pNext createInfo = None).
Proof.
  cbv zeta. split; [|split; [|split]].
  - rewrite createInstance_unfold.
    destruct (enableValidationLayers cfg); simpl.
    + destruct (isValidationLayerSupported cfg drv); simpl.
      * destruct (vkCreateInstance drv _) as [res h]. simpl.
        rewrite <- succeeded_true. destruct (succeeded res); simpl.
        -- split; [intros _ | done]. split; [by right | done].
        -- split; [done | intros [_ ?]; done].
      * split; [done|]. intros [[?|?] _]; done.
    + destruct (vkCreateInstance drv _) as [res h]. simpl.
      rewrite <- succeeded_true. destruct (succeeded res); simpl.
      * split; [intros _ | done]. split; [by left | done].
      * split; [done | intros [_ ?]; done].
  - intros name Hname. unfold createInstance_createInfo, getRequiredExtensions.
    destruct (enableValidationLayers cfg); simpl; [|done].
    apply elem_of_app. by left.
  - intros Hon. unfold createInstance_createInfo, getRequiredExtensions.
    rewrite Hon. simpl. split; [|done]. apply elem_of_app. right. left.
  - intros Hoff. unfold createInstance_createInfo, getRequiredExtensions.
    rewrite Hoff. done.
Qed.


Lemma uniqueQueueFamilies_spec g p :
  NoDup (uniqueQueueFamilies g p)
  ∧ (∀ x, x ∈ uniqueQueueFamilies g p ↔ x = g ∨ x = p)
  ∧ uniqueQueueFamilies g p
    = (if bool_decide (g = p) then [g] else [Z.min g p; Z.max g p]).
Proof.
  unfold uniqueQueueFamilies.
  destruct (g =? p) eqn:E.
  - apply Z.eqb_eq in E. subst p. rewrite bool_decide_eq_true_2 by done.
    split; [apply NoDup_singleton|]. split; [|done].
    intros x. rewrite list_elem_of_singleton. tauto.
  - apply Z.eqb_neq in E. rewrite bool_decide_eq_false_2 by done.
    destruct (g <? p) eqn:L;
      [apply Z.ltb_lt in L | apply Z.ltb_ge in L]; (split; [|split]).
    + apply NoDup_cons. split; [|apply NoDup_singleton].
      rewrite list_elem_of_singleton. done.
    + intros x. rewrite elem_of_cons, list_elem_of_singleton. tauto.
    + by rewrite Z.min_l, Z.max_r by lia.
    + apply NoDup_cons. split; [|apply NoDup_singleton].
      rewrite list_elem_of_singleton. congruence.
    + intros x. rewrite elem_of_cons, list_elem_of_singleton. tauto.
    + by rewrite Z.min_r, Z.max_l by lia.
Qed.

(** X9. With both family indices recorded, createLogicalDevice succeeds
    exactly when the driver accepts a request that asks for one queue from
    each distinct family among the graphics and the presentation family
    (one request when they are the same family, otherwise two, the smaller
    index first, no family twice), with the required device extensions,
    and with the validation layers only in a debug build. *)
Theorem createLogicalDevice_request (cfg : FrameworkConfig) (drv : VkDriver)
  (s : Framework) (g p : Z) :
  findQueueFamilies drv (surface s) (physicalDevice s)
    = {| graphicsFamily := Some g; presentationFamily := Some p |} →
  ∃ createInfo,
    (fst (createLogicalDevice cfg drv s) = Ok tt
     ↔ fst (vkCreateDevice drv (physicalDevice s) createInfo) = VK_SUCCESS)
    ∧ (queueFamilyIndex <$> queueCreateInfos createInfo)
      = (if bool_decide (g = p) then [g] else [Z.min g p; Z.max g p])
    ∧ NoDup (queueFamilyIndex <$> queueCreateInfos createInfo)
    ∧ (∀ request, request ∈ queueCreateInfos createInfo → dq_queueCount request = 1)
    ∧ dci_enabledExtensionNames createInfo = deviceExtensions cfg
    ∧ dci_enabledLayerNames createInfo
      = (if enableValidationLayers cfg then validationLayers cfg else []).
Proof.
  intros Hq. exists (createLogicalDevice_createInfo cfg g p).
  destruct (uniqueQueueFamilies_spec g p) as (Hnd & Hmem & Heq).
  assert (queueFamilyIndex <$> queueCreateInfos (createLogicalDevice_createInfo cfg g p)
          = uniqueQueueFamilies g p) as Hidx.
  { simpl. rewrite <- list_fmap_compose. apply list_fmap_id. }
  split; [|split; [|split; [|split; [|split]]]].
  - rewrite createLogicalDevice_unfold. cbv zeta. rewrite Hq. simpl.
    destruct (vkCreateDevice drv _ _) as [res h]. simpl.
    rewrite <- succeeded_true. by destruct (succeeded res).
  - by rewrite Hidx.
  - by rewrite Hidx.
  - intros request Hin. simpl in Hin.
    apply list_elem_of_fmap in Hin as (x & -> & _). done.
  - done.
  - done.
Qed.

Lemma createLogicalDevice_request_witness :
  ∃ createInfo,
    fst (vkCreateDevice twoGraphicsDriver 7 createInfo) = VK_SUCCESS
    ∧ (queueFamilyIndex <$> queueCreateInfos createInfo) = [0; 1].
Proof.
  destruct (createLogicalDevice_request debugConfig twoGraphicsDriver
              (set_physicalDevice 7 (set_surface 4 newFramework)) 1 0 eq_refl)
    as (createInfo & Hok & Heq & _).
  exists createInfo. split; [by apply Hok | exact Heq].
Defined.




(** ** Selection on a used state *)

Lemma selectPhysicalDevice_unfold cfg drv s :
  selectPhysicalDevice cfg drv s
  = let devices := vkEnumeratePhysicalDevices drv (instance s) in
    match devices with
    | [] => (Err NoAcceleratorFound, s)
    | _ =>
        let s' := selectPhysicalDevice_loop cfg drv devices s in
        if physicalDevice s' =? VK_NULL_HANDLE
        then (Err NoSuitableAccelerator, s') else (Ok tt, s')
    end.
Proof.
  cbv zeta.
  destruct (vkEnumeratePhysicalDevices drv (instance s)) as [|d rest] eqn:E.
  - unfold selectPhysicalDevice, bind, get. by rewrite E.
  - rewrite selectPhysicalDevice_nonempty by (by rewrite E). by rewrite E.
Qed.

(** X12. selectPhysicalDevice changes no member but [physicalDevice], and
    that one only to an enumerated device that passed isDeviceSuitable.
    Its failure test reads the member: entered with [physicalDevice]
    already set, it returns normally and keeps the old device even when
    no enumerated device is suitable. *)
Theorem selectPhysicalDevice_reads_member (cfg : FrameworkConfig) (drv : VkDriver)
  (s : Framework) :
  (snd (selectPhysicalDevice cfg drv s) = s
   ∨ ∃ d, d ∈ vkEnumeratePhysicalDevices drv (instance s)
          ∧ isDeviceSuitable cfg drv (surface s) d = true
          ∧ snd (selectPhysicalDevice cfg drv s) = set_physicalDevice d s)
  ∧ (physicalDevice s ≠ VK_NULL_HANDLE →
     vkEnumeratePhysicalDevices drv (instance s) ≠ [] →
     (∀ d, d ∈ vkEnumeratePhysicalDevices drv (instance s) →
           isDeviceSuitable cfg drv (surface s) d = false) →
     selectPhysicalDevice cfg drv s = (Ok tt, s)).
Proof.
  rewrite selectPhysicalDevice_unfold. cbv zeta. split.
  - destruct (vkEnumeratePhysicalDevices drv (instance s)) as [|d0 rest] eqn:E;
      [by left|].
    destruct (selectPhysicalDevice_loop_cases cfg drv (d0 :: rest) s)
      as [->|(d & Hd & Hs & ->)].
    + left. by destruct (physicalDevice s =? VK_NULL_HANDLE).
    + right. exists d. split; [done|]. split; [done|].
      by destruct (physicalDevice _ =? VK_NULL_HANDLE).
  - intros Hset Hne Hnone.
    destruct (vkEnumeratePhysicalDevices drv (instance s)) as [|d0 rest] eqn:E;
      [done|].
    rewrite selectPhysicalDevice_loop_none.
    + apply Z.eqb_neq in Hset. by rewrite Hset.
    + intros x Hx Hsuit. apply isDeviceSuitable_true in Hsuit.
      rewrite (Hnone x Hx) in Hsuit. done.
Qed.

Lemma selectPhysicalDevice_reads_member_witness :
  selectPhysicalDevice debugConfig headlessDriver (set_physicalDevice 5 newFramework)
  = (Ok tt, set_physicalDevice 5 newFramework).
Proof.
  refine (proj2 (selectPhysicalDevice_reads_member debugConfig headlessDriver
                   (set_physicalDevice 5 newFramework)) _ _ _).
  - discriminate.
  - discriminate.
  - intros d Hd. apply list_elem_of_singleton in Hd as ->. reflexivity.
Defined.

(** ** Image views *)

Lemma sameButViews_refl s : sameButViews s s.
Proof. repeat split. Qed.

Lemma sameButViews_trans s1 s2 s3 :
  sameButViews s1 s2 → sameButViews s2 s3 → sameButViews s1 s3.
Proof.
  unfold sameButViews. intros H12 H23.
  destruct H12 as (?&?&?&?&?&?&?&?&?&?&?&?).
  destruct H23 as (?&?&?&?&?&?&?&?&?&?&?&?).
  repeat split; congruence.
Qed.


Lemma take_S_insert {A} (l : list A) i x :
  (i < length l)%nat → take (S i) (<[i:=x]> l) = take i l ++ [x].
Proof.
  intros Hi. rewrite (take_S_r _ _ x) by (by apply list_lookup_insert_eq).
  by rewrite take_insert_ge.
Qed.

(** The loop over a first part [before] of the images whose views the
    driver creates: it arrives at the rest with the views of [before]
    stored from slot [i] on and logged. *)
Lemma createImageViews_loop_app drv before : ∀ i s,
  (∀ image, image ∈ before → fst (imageViewFor drv s image) = VK_SUCCESS) →
  (i + length before ≤ length (swapChainImageViews s))%nat →
  ∃ s1,
    sameButViews s s1
    ∧ swapChainImageViews s1
      = take i (swapChainImageViews s)
        ++ ((λ image, snd (imageViewFor drv s image)) <$> before)
        ++ drop (i + length before) (swapChainImageViews s)
    ∧ calls s1
      = calls s
        ++ (Acquire ResImageView
            <$> ((λ image, snd (imageViewFor drv s image)) <$> before))
    ∧ ∀ rest, createImageViews_loop drv (before ++ rest) i s
              = createImageViews_loop drv rest (i + length before) s1.
Proof.
  induction before as [|image before IH]; intros i s Hok Hlen.
  - exists s. split; [apply sameButViews_refl|]. simpl.
    rewrite Nat.add_0_r, take_drop, app_nil_r. done.
  - simpl in Hlen.
    pose proof (Hok image ltac:(left)) as Himage.
    unfold imageViewFor in Himage.
    destruct (vkCreateImageView drv (device s)
                (imageViewCreateInfo image (swapChainImageFormat s)))
      as [res h] eqn:Ecreate.
    simpl in Himage. subst res.
    set (s0 := logCall (Acquire ResImageView h)
                 (set_swapChainImageViews (<[i:=h]> (swapChainImageViews s)) s)).
    destruct (IH (S i) s0) as (s1 & Hsame & Hviews & Hcalls & Hloop).
    { intros image' Hin. apply (Hok image'). by right. }
    { simpl. rewrite length_insert. lia. }
    change (imageViewFor drv s0) with (imageViewFor drv s) in Hviews, Hcalls.
    assert (snd (imageViewFor drv s image) = h) as Hh.
    { unfold imageViewFor. by rewrite Ecreate. }
    exists s1. split; [|split; [|split]].
    + eapply sameButViews_trans; [|exact Hsame]. repeat split.
    + rewrite Hviews. simpl. rewrite Hh.
      rewrite take_S_insert by lia. rewrite drop_insert_lt by lia.
      rewrite <- app_assoc. simpl.
      by replace (i + S (length before))%nat with (S (i + length before)) by lia.
    + rewrite Hcalls. simpl. rewrite Hh. by rewrite <- app_assoc.
    + intros rest.
      replace (i + length (image :: before))%nat
        with (S i + length before)%nat by (simpl; lia).
      rewrite <- Hloop. simpl.
      unfold bind at 1. unfold get at 1. rewrite Ecreate. reflexivity.
Qed.

Lemma createImageViews_resized drv s :
  createImageViews drv s
  = createImageViews_loop drv (swapChainImages s) 0
      (set_swapChainImageViews
         (resize (length (swapChainImages s)) VK_NULL_HANDLE
            (swapChainImageViews s)) s).
Proof. reflexivity. Qed.

(** X13. When the driver creates a view for every swapchain image,
    createImageViews succeeds, [swapChainImageViews] holds exactly those
    views, one per image and in the order of [swapChainImages] (whatever
    the vector held before), each is logged once, and no other member
    changes. *)
Theorem createImageViews_all_created (drv : VkDriver) (s : Framework) :
  (∀ image, image ∈ swapChainImages s →
            fst (imageViewFor drv s image) = VK_SUCCESS) →
  ∃ s', createImageViews drv s = (Ok tt, s')
        ∧ swapChainImageViews s'
          = (λ image, snd (imageViewFor drv s image)) <$> swapChainImages s
        ∧ length (swapChainImageViews s') = length (swapChainImages s')
        ∧ calls s' = calls s ++ (Acquire ResImageView <$> swapChainImageViews s')
        ∧ sameButViews s s'.
Proof.
  intros Hok. rewrite createImageViews_resized.
  set (s0 := set_swapChainImageViews _ s).
  destruct (createImageViews_loop_app drv (swapChainImages s) 0 s0)
    as (s1 & Hsame & Hviews & Hcalls & Hloop); [done | |].
  { simpl. by rewrite length_resize. }
  exists s1. specialize (Hloop []). rewrite app_nil_r in Hloop.
  split; [by rewrite Hloop|].
  assert (swapChainImageViews s1
          = (λ image, snd (imageViewFor drv s image)) <$> swapChainImages s)
    as Hv.
  { rewrite Hviews. simpl. rewrite drop_ge by (by rewrite length_resize).
    by rewrite app_nil_r. }
  split; [done|]. split; [|split].
  - rewrite Hv, length_fmap. destruct Hsame as (_&_&_&_&_&_&_&_&_&->&_). done.
  - rewrite Hcalls, Hv. done.
  - eapply sameButViews_trans; [|exact Hsame]. repeat split.
Qed.

Lemma createImageViews_all_created_witness :
  ∃ s', createImageViews sampleDriver
          (set_swapChain 9 [20; 21; 22] 44 {| width := 800; height := 600 |}
             newFramework) = (Ok tt, s')
        ∧ swapChainImageViews s' = [30; 31; 32].
Proof.
  destruct (createImageViews_all_created sampleDriver
              (set_swapChain 9 [20; 21; 22] 44 {| width := 800; height := 600 |}
                 newFramework))
    as (s' & Hrun & Hviews & _).
  - intros image _. reflexivity.
  - exists s'. split; [exact Hrun | exact Hviews].
Defined.



(** ** Start-up as a whole *)

Lemma createImageViews_loop_Ok_all drv images : ∀ i s s',
  createImageViews_loop drv images i s = (Ok tt, s') →
  ∀ image, image ∈ images → fst (imageViewFor drv s image) = VK_SUCCESS.
Proof.
  induction images as [|image0 rest IH]; intros i s s' Hrun image Hin.
  - by apply elem_of_nil in Hin.
  - simpl in Hrun. unfold bind at 1 in Hrun. unfold get at 1 in Hrun.
    destruct (vkCreateImageView drv (device s)
                (imageViewCreateInfo image0 (swapChainImageFormat s)))
      as [res h] eqn:Ecreate.
    destruct (succeeded res) eqn:Eres; [|done]. simpl in Hrun.
    apply elem_of_cons in Hin as [->|Hin].
    + unfold imageViewFor. rewrite Ecreate. by apply succeeded_true.
    + apply (IH _ _ _ Hrun image Hin).
Qed.

Lemma createImageViews_loop_Err drv images : ∀ i s e s',
  createImageViews_loop drv images i s = (Err e, s') → e = ImageViewCreationFailed.
Proof.
  induction images as [|image0 rest IH]; intros i s e s' Hrun; [done|].
  simpl in Hrun. unfold bind at 1 in Hrun. unfold get at 1 in Hrun.
  destruct (vkCreateImageView drv _ _) as [res h].
  destruct (succeeded res); [|by injection Hrun as <-].
  simpl in Hrun. by apply IH in Hrun.
Qed.

Lemma createImageViews_Ok drv s s' :
  createImageViews drv s = (Ok tt, s') →
  (∀ image, image ∈ swapChainImages s →
            fst (imageViewFor drv s image) = VK_SUCCESS)
  ∧ swapChainImageViews s'
    = (λ image, snd (imageViewFor drv s image)) <$> swapChainImages s
  ∧ calls s' = calls s ++ (Acquire ResImageView <$> swapChainImageViews s')
  ∧ sameButViews s s'.
Proof.
  intros Hrun.
  assert (∀ image, image ∈ swapChainImages s →
                   fst (imageViewFor drv s image) = VK_SUCCESS) as Hall.
  { rewrite createImageViews_resized in Hrun.
    apply (createImageViews_loop_Ok_all _ _ _ _ _ Hrun). }
  split; [done|].
  rewrite createImageViews_resized in Hrun.
  set (s0 := set_swapChainImageViews _ s) in Hrun.
  destruct (createImageViews_loop_app drv (swapChainImages s) 0 s0)
    as (s1 & Hsame & Hviews & Hcalls & Hloop); [done | |].
  { simpl. by rewrite length_resize. }
  change (imageViewFor drv s0) with (imageViewFor drv s) in Hviews, Hcalls.
  specialize (Hloop []). rewrite app_nil_r in Hloop. rewrite Hloop in Hrun.
  simpl in Hrun. injection Hrun as <-.
  assert (swapChainImageViews s1
          = (λ image, snd (imageViewFor drv s image)) <$> swapChainImages s)
    as Hv.
  { rewrite Hviews. simpl. rewrite drop_ge by (by rewrite length_resize).
    by rewrite app_nil_r. }
  split; [done|]. split.
  - rewrite Hcalls, Hv. done.
  - eapply sameButViews_trans; [|exact Hsame]. repeat split.
Qed.

Lemma createSwapChain_createInfo_fields cfg drv surface physicalDevice createInfo :
  createSwapChain_createInfo cfg drv surface physicalDevice = Ok createInfo →
  ∃ surfaceFormat,
    chooseSwapSurfaceFormat
      (vkGetPhysicalDeviceSurfaceFormatsKHR drv physicalDevice surface)
    = Ok surfaceFormat
    ∧ imageFormat createInfo = format surfaceFormat
    ∧ imageColorSpace createInfo = colorSpace surfaceFormat
    ∧ imageExtent createInfo
      = chooseSwapExtent cfg
          (vkGetPhysicalDeviceSurfaceCapabilitiesKHR drv physicalDevice surface)
    ∧ presentMode createInfo
      = chooseSwapPresentationMode
          (vkGetPhysicalDeviceSurfacePresentModesKHR drv physicalDevice surface)
    ∧ sci_minImageCount createInfo
      = createSwapChain_imageCount
          (vkGetPhysicalDeviceSurfaceCapabilitiesKHR drv physicalDevice surface)
    ∧ sci_surface createInfo = surface
    ∧ imageArrayLayers createInfo = 1
    ∧ imageUsage createInfo = VK_IMAGE_USAGE_COLOR_ATTACHMENT_BIT
    ∧ preTransform createInfo
      = currentTransform
          (vkGetPhysicalDeviceSurfaceCapabilitiesKHR drv physicalDevice surface)
    ∧ compositeAlpha createInfo = VK_COMPOSITE_ALPHA_OPAQUE_BIT_KHR
    ∧ clipped createInfo = true
    ∧ oldSwapchain createInfo = VK_NULL_HANDLE.
Proof.
  unfold createSwapChain_createInfo.
  rewrite querySwapChainSupport_surfaceFormats,
    querySwapChainSupport_presentationModes.
  destruct (chooseSwapSurfaceFormat _) as [f|] eqn:Ef; [|done].
  destruct (createSwapChain_sharing _) as [[[mode count] ptr]|]; [|done].
  intros [= <-]. exists f. simpl. repeat split; done.
Qed.

Lemma initWindow_unfold drv s :
  initWindow drv s
  = (Ok tt,
     logCall (Acquire ResWindow (glfwCreateWindow drv 800 600 "Vulkan"))
       (set_window (glfwCreateWindow drv 800 600 "Vulkan")
          (logCall (Acquire ResGlfw VK_NULL_HANDLE) s))).
Proof. reflexivity. Qed.

Lemma selectPhysicalDevice_Ok_cases cfg drv s s1 :
  selectPhysicalDevice cfg drv s = (Ok tt, s1) →
  (s1 = s ∧ physicalDevice s ≠ VK_NULL_HANDLE)
  ∨ ∃ d, d ∈ vkEnumeratePhysicalDevices drv (instance s)
         ∧ Suitable cfg drv (surface s) d
         ∧ s1 = set_physicalDevice d s.
Proof.
  rewrite selectPhysicalDevice_unfold. cbv zeta.
  destruct (vkEnumeratePhysicalDevices drv (instance s)) as [|d0 rest]; [done|].
  destruct (selectPhysicalDevice_loop_cases cfg drv (d0 :: rest) s)
    as [Hsame|(d & Hd & Hs & Hset)].
  - rewrite Hsame.
    destruct (physicalDevice s =? VK_NULL_HANDLE) eqn:Enull; [done|].
    intros [= <-]. left. split; [done|]. by apply Z.eqb_neq.
  - rewrite Hset.
    destruct (physicalDevice (set_physicalDevice d s) =? VK_NULL_HANDLE); [done|].
    intros [= <-]. right. exists d. split; [done|].
    split; [by apply isDeviceSuitable_true | done].
Qed.

(** What a start-up that succeeded leaves behind, up to the call of
    createImageViews. *)
Lemma startUp_Ok_before_views cfg drv s0 s1 :
  startUp cfg drv s0 = (Ok tt, s1) →
  ∃ s5,
    createImageViews drv s5 = (Ok tt, s1)
    ∧ window s5 = glfwCreateWindow drv 800 600 "Vulkan"
    ∧ calls s5
      = calls s0
        ++ [Acquire ResGlfw VK_NULL_HANDLE; Acquire ResWindow (window s5);
            Acquire ResInstance (instance s5)]
        ++ (if enableValidationLayers cfg
            then [Acquire ResDebugMessenger (debugMessenger s5)] else [])
        ++ [Acquire ResSurface (surface s5); Acquire ResDevice (device s5);
            Acquire ResSwapchain (swapChain s5)]
    ∧ (physicalDevice s0 = VK_NULL_HANDLE →
       physicalDevice s5 ∈ vkEnumeratePhysicalDevices drv (instance s5)
       ∧ Suitable cfg drv (surface s5) (physicalDevice s5))
    ∧ (∃ createInfo,
         createSwapChain_createInfo cfg drv (surface s5) (physicalDevice s5)
         = Ok createInfo
         ∧ swapChainImageFormat s5 = imageFormat createInfo
         ∧ swapChainExtent s5 = imageExtent createInfo)
    ∧ swapChainImages s5 = vkGetSwapchainImagesKHR drv (device s5) (swapChain s5)
    ∧ (∃ g p,
         findQueueFamilies drv (surface s5) (physicalDevice s5)
         = {| graphicsFamily := Some g; presentationFamily := Some p |}
         ∧ graphicsQueue s5 = vkGetDeviceQueue drv (device s5) g 0
         ∧ presentationQueue s5 = vkGetDeviceQueue drv (device s5) p 0).
Proof.
  unfold startUp, initVulkan. intros Hrun.
  apply bind_Ok in Hrun as ([] & sw & Hwin & Hrun).
  rewrite initWindow_unfold in Hwin. injection Hwin as <-.
  apply bind_Ok in Hrun as ([] & si & Hinst & Hrun).
  rewrite createInstance_unfold in Hinst.
  destruct (enableValidationLayers cfg && negb (isValidationLayerSupported cfg drv));
    [done|].
  destruct (vkCreateInstance drv _) as [ri hi].
  destruct (succeeded ri); [|done]. injection Hinst as <-.
  apply bind_Ok in Hrun as ([] & sd & Hdbg & Hrun).
  rewrite createDebugMessenger_unfold in Hdbg.
  apply bind_Ok in Hrun as ([] & ss & Hsurf & Hrun).
  rewrite createSurface_unfold in Hsurf.
  destruct (glfwCreateWindowSurface drv (instance sd) (window sd)) as [rs hs].
  destruct (succeeded rs); [|done]. injection Hsurf as <-.
  apply bind_Ok in Hrun as ([] & sp & Hsel & Hrun).
  apply selectPhysicalDevice_Ok_cases in Hsel.
  apply bind_Ok in Hrun as ([] & sl & Hdev & Hrun).
  rewrite createLogicalDevice_unfold in Hdev. cbv zeta in Hdev.
  destruct (findQueueFamilies drv (surface sp) (physicalDevice sp))
    as [[g|] [p|]] eqn:Eq; simpl in Hdev; try done.
  destruct (vkCreateDevice drv _ _) as [rd hd].
  destruct (succeeded rd); [|done]. injection Hdev as <-.
  apply bind_Ok in Hrun as ([] & sc & Hswap & Hrun).
  rewrite createSwapChain_unfold in Hswap. simpl in Hswap.
  destruct (createSwapChain_createInfo cfg drv (surface sp) (physicalDevice sp))
    as [createInfo|] eqn:Einfo; [|done].
  destruct (vkCreateSwapchainKHR drv _ _) as [rsc hsc].
  destruct (succeeded rsc); [|done]. injection Hswap as <-.
  exists (logCall (Acquire ResSwapchain hsc)
            (set_swapChain hsc (vkGetSwapchainImagesKHR drv hd hsc)
               (imageFormat createInfo) (imageExtent createInfo)
               (logCall (Acquire ResDevice hd)
                  (set_device hd (vkGetDeviceQueue drv hd g 0)
                     (vkGetDeviceQueue drv hd p 0) sp)))).
  split; [exact Hrun|]. clear Hrun s1. simpl.
  assert (physicalDevice sd = physicalDevice s0) as Hpd.
  { destruct (negb (enableValidationLayers cfg)); [by injection Hdbg as <-|].
    destruct (createDebugUtilsMessengerEXT drv _ _ _) as [rm hm].
    destruct (succeeded rm); [|done]. by injection Hdbg as <-. }
  assert (window sd = glfwCreateWindow drv 800 600 "Vulkan"
          ∧ instance sd = hi
          ∧ calls sd
            = calls s0
              ++ [Acquire ResGlfw VK_NULL_HANDLE;
                  Acquire ResWindow (glfwCreateWindow drv 800 600 "Vulkan");
                  Acquire ResInstance hi]
              ++ (if enableValidationLayers cfg
                  then [Acquire ResDebugMessenger (debugMessenger sd)] else []))
    as (Hw & Hi & Hc).
  { destruct (enableValidationLayers cfg); simpl in Hdbg.
    - destruct (createDebugUtilsMessengerEXT drv _ _ _) as [rm hm].
      destruct (succeeded rm); [|done]. injection Hdbg as <-. simpl.
      repeat split. by rewrite <- !app_assoc.
    - injection Hdbg as <-. simpl. repeat split. by rewrite <- !app_assoc. }
  destruct Hsel as [[-> Hset]|(d & Hd & Hs & ->)]; simpl in *.
  - rewrite Hw, Hi, Hc. split; [done|]. split.
    { by rewrite <- !app_assoc. }
    split; [intros Hnull; by rewrite Hpd in Hset|].
    split; [by exists createInfo|]. split; [done|]. by exists g, p.
  - rewrite Hw, Hi, Hc. split; [done|]. split.
    { by rewrite <- !app_assoc. }
    split; [by rewrite <- Hi|].
    split; [by exists createInfo|]. split; [done|]. by exists g, p.
Qed.
